(** * MsgBomberTGBot: the conversation bot of [main.py], embedded and verified

    The development follows the layout of [main.py]:
    - [Py]: the few Python built-ins the handlers rely on ([str.strip],
      [str.endswith], [int(str)], slicing with a negative start, the
      insertion-ordered [dict]);
    - the data model ([UserProfile], [FeedbackEntry], [InMemoryStore]);
    - the handlers, written in a small state monad over the handler context
      (the global [store], [context.user_data], the outside world and the
      messages produced so far);
    - [build_application]: the routing of an update to the first handler
      that accepts it, with the three [ConversationHandler]s;
    - the properties of the specification, one theorem per claim. *)

From Stdlib Require Import ZArith Ascii String List Bool Lia.
From stdpp Require Import base option list gmap strings pretty.

Local Open Scope Z_scope.

(** ** Python built-ins *)

Module Py.

(** The line feed, written ["\n"] in the source. *)
Definition nl : string := String (ascii_of_nat 10) EmptyString.

(** [str.isspace] on one character (ASCII part: TAB..CR, FS..US, SPACE). *)
Definition isspace (c : ascii) : bool :=
  let n := nat_of_ascii c in
  ((9 <=? n)%nat && (n <=? 13)%nat) || ((28 <=? n)%nat && (n <=? 32)%nat).

Fixpoint lstrip (s : string) : string :=
  match s with
  | String c r => if isspace c then lstrip r else s
  | EmptyString => EmptyString
  end.

(** [rstrip] keeps a character when it is not a space or when something
    survives to its right. *)
Fixpoint rstrip (s : string) : string :=
  match s with
  | String c r =>
      match rstrip r with
      | EmptyString => if isspace c then EmptyString else String c EmptyString
      | r' => String c r'
      end
  | EmptyString => EmptyString
  end.

(** [s.strip()] *)
Definition strip (s : string) : string := rstrip (lstrip s).

(** [s.endswith(suffix)] *)
Definition endswith (s suffix : string) : bool :=
  let n := String.length s in
  let k := String.length suffix in
  (k <=? n)%nat && String.eqb (substring (n - k) k s) suffix.

(** [sep.join(parts)] *)
Definition join (sep : string) (parts : list string) : string :=
  String.concat sep parts.

(** Truthiness of a [str]: the empty string is falsy. *)
Definition truthy (s : string) : bool :=
  match s with EmptyString => false | _ => true end.

(** [str(n)] for an [int], also what an f-string writes. *)
Definition str_of_int (n : Z) : string := pretty n.

Definition digit (c : ascii) : option Z :=
  let n := nat_of_ascii c in
  if ((48 <=? n)%nat && (n <=? 57)%nat)%bool then Some (Z.of_nat n - 48) else None.

(** The digits of an integer literal after its first digit: a single
    underscore is accepted between two digits. *)
Fixpoint int_digits (acc : Z) (s : string) : option Z :=
  match s with
  | EmptyString => Some acc
  | String c r =>
      match digit c with
      | Some d => int_digits (10 * acc + d) r
      | None =>
          if Ascii.eqb c "_"%char then
            match r with
            | String c' r' =>
                match digit c' with
                | Some d => int_digits (10 * acc + d) r'
                | None => None
                end
            | EmptyString => None
            end
          else None
      end
  end.

Definition int_unsigned (s : string) : option Z :=
  match s with
  | String c r =>
      match digit c with
      | Some d => int_digits d r
      | None => None
      end
  | EmptyString => None
  end.

(** [int(s)] in base 10; [None] stands for [ValueError].  Surrounding
    white space and one sign are accepted.  (Strings are byte strings
    here, so the non-ASCII digits and spaces that [int] also takes are
    outside the model; a message text has at most 4096 characters, below
    the length at which [int] refuses a string of digits.) *)
Definition int (s : string) : option Z :=
  match strip s with
  | String "+"%char r => int_unsigned r
  | String "-"%char r => Z.opp <$> int_unsigned r
  | t => int_unsigned t
  end.

(** [l[start:]]: a negative start counts from the end, and both ends
    are clamped to the list. *)
Definition slice_from {A} (start : Z) (l : list A) : list A :=
  let n := Z.of_nat (length l) in
  let s := if start <? 0 then Z.max 0 (start + n) else Z.min start n in
  drop (Z.to_nat s) l.

(** An insertion-ordered [dict] with integer keys. *)
Section Dict.
Context {V : Type}.

Fixpoint dict_get (d : list (Z * V)) (k : Z) : option V :=
    match d with
    | [] => None
    | (k', v) :: r => if Z.eqb k' k then Some v else dict_get r k
    end.

(** [k in d] *)
Definition dict_in (d : list (Z * V)) (k : Z) : bool :=
    match dict_get d k with Some _ => true | None => false end.

(** [d[k] = v]: an existing key keeps its place, a new one goes last. *)
Fixpoint dict_set (d : list (Z * V)) (k : Z) (v : V) : list (Z * V) :=
    match d with
    | [] => [(k, v)]
    | (k', v') :: r =>
        if Z.eqb k' k then (k, v) :: r else (k', v') :: dict_set r k v
    end.

(** [list(d.keys())] *)
Definition dict_keys (d : list (Z * V)) : list Z := map fst d.
End Dict.

(** A value held in [context.user_data]. *)
Inductive Val : Type :=
| VNone
| VStr (s : string).

Definition Val_eqb (a b : Val) : bool :=
  match a, b with
  | VNone, VNone => true
  | VStr x, VStr y => String.eqb x y
  | _, _ => false
  end.

(** [d.get(key)] on a [dict] with string keys: [None] when absent. *)
Definition get (d : gmap string Val) (key : string) : Val :=
  match d !! key with Some v => v | None => VNone end.

(** [d.pop(key, None)] keeps only its effect on the dict. *)
Definition pop (d : gmap string Val) (key : string) : gmap string Val :=
  delete key d.

End Py.

(** ** What the program takes from outside

    The Telegram transport, the clock and the random generator are not
    part of the program.  [send_message] is [context.bot.send_message],
    whose result [false] stands for a raised exception; [randint] is
    [random.randint]; [time_time] is [time.time]; [strftime t] is
    [time.strftime("%Y-%m-%d %H:%M:%S", time.localtime(t))].  The three
    effectful ones thread the state [Ext] of the outside world. *)

Class Environment : Type := {
  Ext : Type;
  Time : Type;
  send_message : Z -> string -> Ext -> bool * Ext;
  randint : Z -> Z -> Ext -> Z * Ext;
  time_time : Ext -> Time * Ext;
  strftime : Time -> string
}.

(** [config.py] is not part of the program either: [AUTH_USERS] is
    [Config.AUTH_USERS], which [is_authorized] reads at every call. *)
Class Config : Type := {
  AUTH_USERS : list Z
}.

(** The states of the three conversations, [range(3)], [range(3, 5)],
    [range(5, 7)], and [ConversationHandler.END]. *)
Definition REGISTER_NAME : Z := 0.
Definition REGISTER_AGE : Z := 1.
Definition REGISTER_DONE : Z := 2.
Definition FEEDBACK_TEXT : Z := 3.
Definition FEEDBACK_CONFIRM : Z := 4.
Definition BROADCAST_TEXT : Z := 5.
Definition BROADCAST_CONFIRM : Z := 6.
Definition UTILITY_MENU : Z := 7.
Definition UTILITY_WAIT_INPUT : Z := 8.
Definition END : Z := -1.

(** The sender of an update ([telegram.User]): [user.id], [user.full_name],
    [user.username]. *)
Record User : Type := {
  uid : Z;
  full_name : string;
  username : option string
}.

(** An inline keyboard: rows of buttons, each a label and its callback data. *)
Definition InlineKeyboardMarkup : Type := list (list (string * string)).

(** What a handler does towards the outside, in the order it does it. *)
Inductive Effect : Type :=
| Reply (text : string) (reply_markup : option InlineKeyboardMarkup)
| Answer
| EditMessage (text : string) (reply_markup : option InlineKeyboardMarkup)
| SendMessage (chat_id : Z) (text : string) (delivered : bool)
| LogWarning (chat_id : Z)
| Sleep.

Definition is_send (e : Effect) : bool :=
  match e with SendMessage _ _ _ => true | _ => false end.

Section Model.
Context {env : Environment}.

(** *** Data model *)

Record UserProfile : Type := {
  user_id : Z;
  name : option string;
  age : option Z;
  created_at : Time
}.

Record FeedbackEntry : Type := {
  fb_user_id : Z;
  fb_username : option string;
  fb_text : string;
  fb_created_at : Time
}.

Record InMemoryStore : Type := {
  profiles : list (Z * UserProfile);
  feedback : list FeedbackEntry;
  blocked_users : gset Z
}.

(** [InMemoryStore()] *)
Definition empty_store : InMemoryStore :=
  {| profiles := []; feedback := []; blocked_users := ∅ |}.

(** *** The handler context

    A handler runs against the global [store], the sender's
    [context.user_data] and the outside world, and leaves a trail of
    effects. *)

Record Ctx : Type := {
  store : InMemoryStore;
  user_data : gmap string Py.Val;
  ext : Ext;
  trail : list Effect
}.

Definition M (A : Type) : Type := Ctx -> A * Ctx.

Definition ret {A} (a : A) : M A := fun c => (a, c).

Definition bind {A B} (m : M A) (k : A -> M B) : M B :=
  fun c => let (a, c') := m c in k a c'.

Definition get_store : M InMemoryStore := fun c => (store c, c).

Definition put_store (s : InMemoryStore) : M unit :=
  fun c => (tt, {| store := s; user_data := user_data c; ext := ext c; trail := trail c |}).

Definition get_user_data : M (gmap string Py.Val) := fun c => (user_data c, c).

Definition put_user_data (d : gmap string Py.Val) : M unit :=
  fun c => (tt, {| store := store c; user_data := d; ext := ext c; trail := trail c |}).

Definition emit (e : Effect) : M unit :=
  fun c => (tt, {| store := store c; user_data := user_data c; ext := ext c;
                   trail := trail c ++ [e] |}).

(** A call to the outside world. *)
Definition ask {A} (f : Ext -> A * Ext) : M A :=
  fun c => let (a, x) := f (ext c) in
           (a, {| store := store c; user_data := user_data c; ext := x; trail := trail c |}).

End Model.

Declare Scope bot_scope.
Delimit Scope bot_scope with bot.
Notation "'let*' x ':=' m 'in' k" := (bind m (fun x => k))
  (at level 10, x name, m at level 100, k at level 200) : bot_scope.
Notation "m ;; k" := (bind m (fun _ => k))
  (at level 100, k at level 200, right associativity) : bot_scope.
Local Open Scope bot_scope.

Section Handlers.
Context {env : Environment} {cfg : Config}.

(** *** [InMemoryStore] methods *)

Definition get_or_create_profile (user_id : Z) : M UserProfile :=
  let* s := get_store in
  match Py.dict_get (profiles s) user_id with
  | Some p => ret p
  | None =>
      let* now := ask time_time in
      let p := {| user_id := user_id; name := None; age := None; created_at := now |} in
      put_store {| profiles := Py.dict_set (profiles s) user_id p;
                   feedback := feedback s; blocked_users := blocked_users s |} ;;
      ret p
  end.

(** [profile.name = v] and [profile.age = v] on the profile object held at
    [store.profiles[key]]: the write lands in the store. *)
Definition with_name (p : UserProfile) (v : string) : UserProfile :=
  {| user_id := user_id p; name := Some v; age := age p; created_at := created_at p |}.

Definition with_age (p : UserProfile) (v : Z) : UserProfile :=
  {| user_id := user_id p; name := name p; age := Some v; created_at := created_at p |}.

Definition assign_name (key : Z) (p : UserProfile) (v : string) : M unit :=
  let* s := get_store in
  put_store {| profiles := Py.dict_set (profiles s) key (with_name p v);
               feedback := feedback s; blocked_users := blocked_users s |}.

Definition assign_age (key : Z) (p : UserProfile) (v : Z) : M unit :=
  let* s := get_store in
  put_store {| profiles := Py.dict_set (profiles s) key (with_age p v);
               feedback := feedback s; blocked_users := blocked_users s |}.

Definition update_profile_name (user_id : Z) (name : string) : M unit :=
  let* profile := get_or_create_profile user_id in
  assign_name user_id profile name.

Definition update_profile_age (user_id : Z) (age : Z) : M unit :=
  let* profile := get_or_create_profile user_id in
  assign_age user_id profile age.

Definition add_feedback (entry : FeedbackEntry) : M unit :=
  let* s := get_store in
  put_store {| profiles := profiles s; feedback := feedback s ++ [entry];
               blocked_users := blocked_users s |}.

(** [self.feedback[-limit:]], a pure query of the store. *)
Definition get_recent_feedback (s : InMemoryStore) (limit : Z) : list FeedbackEntry :=
  Py.slice_from (- limit) (feedback s).

(** The default value of [limit]. *)
Definition get_recent_feedback_default_limit : Z := 10.

Definition block_user (user_id : Z) : M unit :=
  let* s := get_store in
  put_store {| profiles := profiles s; feedback := feedback s;
               blocked_users := {[user_id]} ∪ blocked_users s |}.

Definition unblock_user (user_id : Z) : M unit :=
  let* s := get_store in
  put_store {| profiles := profiles s; feedback := feedback s;
               blocked_users := blocked_users s ∖ {[user_id]} |}.

Definition is_blocked (user_id : Z) : M bool :=
  let* s := get_store in
  ret (bool_decide (user_id ∈ blocked_users s)).

(** *** Helpers of the handlers *)

(** [update.message.reply_text], [query.answer], [query.edit_message_text],
    [logger.warning], [asyncio.sleep(0.05)]. *)
Definition reply_text (text : string) (markup : option InlineKeyboardMarkup) : M unit :=
  emit (Reply text markup).

Definition query_answer : M unit := emit Answer.

Definition edit_message_text (text : string) (markup : option InlineKeyboardMarkup) : M unit :=
  emit (EditMessage text markup).

Definition logger_warning (chat_id : Z) : M unit := emit (LogWarning chat_id).

Definition asyncio_sleep : M unit := emit Sleep.

(** [context.bot.send_message(chat_id=..., text=...)] inside [try]: the
    result tells whether the call returned ([true]) or raised ([false]). *)
Definition bot_send_message (chat_id : Z) (text : string) : M bool :=
  let* ok := ask (send_message chat_id text) in
  emit (SendMessage chat_id text ok) ;;
  ret ok.

(** [context.user_data[key] = v] and [context.user_data.pop(key, None)]. *)
Definition user_data_set (key : string) (v : Py.Val) : M unit :=
  let* d := get_user_data in put_user_data (<[key := v]> d).

Definition user_data_pop (key : string) : M unit :=
  let* d := get_user_data in put_user_data (Py.pop d key).

Definition user_data_get (key : string) : M Py.Val :=
  let* d := get_user_data in ret (Py.get d key).

Definition is_authorized (user_id : option Z) : bool :=
  match user_id with
  | None => false
  | Some i => existsb (Z.eqb i) AUTH_USERS
  end.

(** [f"{x}"] of an optional string: [None] prints as ["None"]. *)
Definition str_of_opt (o : option string) : string :=
  match o with Some s => s | None => "None" end.

Definition format_profile (profile : UserProfile) : string :=
  let parts := ["ID: " +:+ Py.str_of_int (user_id profile)] in
  let parts :=
    match name profile with
    | Some n => if Py.truthy n then parts ++ ["Name: " +:+ n] else parts
    | None => parts
    end in
  let parts :=
    match age profile with
    | Some a => parts ++ ["Age: " +:+ Py.str_of_int a]
    | None => parts
    end in
  let parts := parts ++ ["Registered: " +:+ strftime (created_at profile)] in
  Py.join Py.nl parts.

Definition build_main_menu_keyboard (is_admin : bool) : InlineKeyboardMarkup :=
  let buttons :=
    [ [("Profile", "menu_profile"); ("Utilities", "menu_utilities")];
      [("Feedback", "menu_feedback")] ] in
  if is_admin
  then buttons ++ [ [("Admin: Broadcast", "menu_admin_broadcast")] ]
  else buttons.

Definition build_yes_no_keyboard (prefix : string) : InlineKeyboardMarkup :=
  [ [("Yes", prefix +:+ ":yes"); ("No", prefix +:+ ":no")] ].

Definition build_utility_menu_keyboard : InlineKeyboardMarkup :=
  [ [("Echo", "util_echo"); ("Roll Dice", "util_dice")];
    [("Random Number", "util_random"); ("Back", "util_back")] ].

(** *** One-shot command handlers *)

Definition start (user : option User) : M unit :=
  match user with
  | None => ret tt
  | Some user =>
      let* profile := get_or_create_profile (uid user) in
      (match name profile with
       | None =>
           if Py.truthy (full_name user)
           then update_profile_name (uid user) (full_name user)
           else ret tt
       | Some _ => ret tt
       end) ;;
      let is_admin := is_authorized (Some (uid user)) in
      let keyboard := build_main_menu_keyboard is_admin in
      let text :=
        "Welcome to the utility bot." +:+ Py.nl +:+
        "Use the buttons below or commands:" +:+ Py.nl +:+
        "/register, /profile, /feedback, /help" in
      reply_text text (Some keyboard)
  end.

Definition help_command (user : option User) : M unit :=
  let lines :=
    [ "Available commands:";
      "/start - Show main menu";
      "/register - Create or update your profile";
      "/profile - Show your profile information";
      "/feedback - Send feedback to the admins";
      "/echo <text> - Echo back text" ] in
  let lines :=
    if is_authorized (uid <$> user)
    then lines ++ [ "/broadcast - Send a message to all known users";
                    "/admin_feedback - Show recent feedback entries" ]
    else lines in
  reply_text (Py.join Py.nl lines) None.

Definition echo_command (args : list string) : M unit :=
  match args with
  | _ :: _ => reply_text (Py.join " " args) None
  | [] => reply_text "Send text after /echo to repeat it." None
  end.

Definition profile_command (user : option User) : M unit :=
  match user with
  | None => ret tt
  | Some user =>
      let* profile := get_or_create_profile (uid user) in
      reply_text (format_profile profile) None
  end.

(** *** Registration *)

Definition register_start (user : option User) : M Z :=
  match user with
  | None => ret END
  | Some user =>
      let* profile := get_or_create_profile (uid user) in
      (match name profile with
       | Some n =>
           if Py.truthy n
           then reply_text ("Your current name is: " +:+ n +:+ Py.nl +:+
                            "Send a new name or /cancel.") None
           else reply_text "Send your name." None
       | None => reply_text "Send your name." None
       end) ;;
      ret REGISTER_NAME
  end.

Definition register_name (user : option User) (message : option string) : M Z :=
  match user, message with
  | Some user, Some text =>
      let name_text := Py.strip text in
      if negb (Py.truthy name_text)
      then reply_text "Name cannot be empty. Send your name." None ;;
           ret REGISTER_NAME
      else update_profile_name (uid user) name_text ;;
           reply_text "Now send your age as a number." None ;;
           ret REGISTER_AGE
  | _, _ => ret END
  end.

Definition register_age (user : option User) (message : option string) : M Z :=
  match user, message with
  | Some user, Some text =>
      let text := Py.strip text in
      match Py.int text with
      | None =>
          reply_text "Age must be a number. Send it again." None ;;
          ret REGISTER_AGE
      | Some age_val =>
          if (age_val <=? 0) || (age_val >? 120)
          then reply_text "Age seems invalid. Send a realistic age." None ;;
               ret REGISTER_AGE
          else update_profile_age (uid user) age_val ;;
               let* profile := get_or_create_profile (uid user) in
               let summary := format_profile profile in
               reply_text ("Registration completed:" +:+ Py.nl +:+ Py.nl +:+ summary) None ;;
               ret END
      end
  | _, _ => ret END
  end.

Definition register_cancel : M Z :=
  reply_text "Registration cancelled." None ;;
  ret END.

(** *** Feedback *)

Definition feedback_start : M Z :=
  reply_text "Send your feedback text or /cancel." None ;;
  ret FEEDBACK_TEXT.

Definition feedback_text (user : option User) (message : option string) : M Z :=
  match message, user with
  | Some text, Some _ =>
      let text := Py.strip text in
      if negb (Py.truthy text)
      then reply_text "Feedback cannot be empty. Send your text." None ;;
           ret FEEDBACK_TEXT
      else user_data_set "pending_feedback" (Py.VStr text) ;;
           let keyboard := build_yes_no_keyboard "feedback_confirm" in
           reply_text "Do you want to send this feedback?" (Some keyboard) ;;
           ret FEEDBACK_CONFIRM
  | _, _ => ret END
  end.

(** The notification loop of [feedback_decision]: one attempt per entry of
    [Config.AUTH_USERS], a failure is only logged. *)
Fixpoint notify_admins (admins : list Z) (text : string) : M unit :=
  match admins with
  | [] => ret tt
  | admin_id :: rest =>
      let* ok := bot_send_message admin_id text in
      (if ok then ret tt else logger_warning admin_id) ;;
      notify_admins rest text
  end.

Definition feedback_decision (from_user : User) (data : string) : M Z :=
  query_answer ;;
  let* text := user_data_get "pending_feedback" in
  match text with
  | Py.VNone =>
      edit_message_text "No feedback to send." None ;;
      ret END
  | Py.VStr text =>
      (if Py.endswith data "yes"
       then
         let user := from_user in
         let* now := ask time_time in
         let entry := {| fb_user_id := uid user; fb_username := username user;
                         fb_text := text; fb_created_at := now |} in
         add_feedback entry ;;
         notify_admins AUTH_USERS
           ("New feedback from " +:+ Py.str_of_int (uid user) +:+
            " (@" +:+ str_of_opt (username user) +:+ "):" +:+ Py.nl +:+ text) ;;
         edit_message_text "Feedback sent. Thank you." None
       else edit_message_text "Feedback discarded." None) ;;
      user_data_pop "pending_feedback" ;;
      ret END
  end.

Definition feedback_cancel : M Z :=
  reply_text "Feedback cancelled." None ;;
  user_data_pop "pending_feedback" ;;
  ret END.

Definition feedback_line (entry : FeedbackEntry) : string :=
  "[" +:+ strftime (fb_created_at entry) +:+ "] from " +:+
  Py.str_of_int (fb_user_id entry) +:+ " (@" +:+ str_of_opt (fb_username entry) +:+
  "):" +:+ Py.nl +:+ fb_text entry +:+ Py.nl.

Definition admin_show_feedback (user : option User) : M unit :=
  if negb (is_authorized (uid <$> user))
  then reply_text "You are not authorized to use this command." None
  else
    let* s := get_store in
    let entries := get_recent_feedback s 10 in
    match entries with
    | [] => reply_text "No feedback yet." None
    | _ => reply_text (Py.join Py.nl (map feedback_line entries)) None
    end.

(** *** Broadcast *)

Definition broadcast_start (user : option User) : M Z :=
  if negb (is_authorized (uid <$> user))
  then reply_text "You are not authorized to broadcast." None ;;
       ret END
  else reply_text "Send the broadcast message text or /cancel." None ;;
       ret BROADCAST_TEXT.

Definition broadcast_text (message : option string) : M Z :=
  match message with
  | None => ret END
  | Some text =>
      let text := Py.strip text in
      if negb (Py.truthy text)
      then reply_text "Broadcast text cannot be empty." None ;;
           ret BROADCAST_TEXT
      else user_data_set "pending_broadcast" (Py.VStr text) ;;
           let keyboard := build_yes_no_keyboard "broadcast_confirm" in
           reply_text "Send this message to all known users?" (Some keyboard) ;;
           ret BROADCAST_CONFIRM
  end.

(** The [for user_id in targets] loop of [broadcast_decision], with its two
    counters. *)
Fixpoint fan_out (targets : list Z) (text : string) (sent failed : Z) : M (Z * Z) :=
  match targets with
  | [] => ret (sent, failed)
  | user_id :: rest =>
      let* blocked := is_blocked user_id in
      if blocked
      then fan_out rest text sent failed
      else
        let* ok := bot_send_message user_id text in
        if ok
        then asyncio_sleep ;;
             fan_out rest text (sent + 1) failed
        else logger_warning user_id ;;
             fan_out rest text sent (failed + 1)
  end.

Definition broadcast_decision (from_user : option User) (data : string) : M Z :=
  query_answer ;;
  let* text := user_data_get "pending_broadcast" in
  match text with
  | Py.VNone =>
      edit_message_text "No broadcast pending." None ;;
      ret END
  | Py.VStr text =>
      if negb (is_authorized (uid <$> from_user))
      then edit_message_text "Not authorized." None ;;
           ret END
      else
        (if Py.endswith data "yes"
         then
           let* s := get_store in
           let targets := Py.dict_keys (profiles s) in
           let* counts := fan_out targets text 0 0 in
           edit_message_text
             ("Broadcast finished. Sent: " +:+ Py.str_of_int (fst counts) +:+
              ", failed: " +:+ Py.str_of_int (snd counts) +:+ ".") None
         else edit_message_text "Broadcast cancelled." None) ;;
        user_data_pop "pending_broadcast" ;;
        ret END
  end.

Definition broadcast_cancel : M Z :=
  reply_text "Broadcast cancelled." None ;;
  user_data_pop "pending_broadcast" ;;
  ret END.

(** *** Menus and utilities *)

Definition button_main_menu (from_user : User) (data : string) : M unit :=
  query_answer ;;
  let user := from_user in
  if String.eqb data "menu_profile" then
    let* profile := get_or_create_profile (uid user) in
    edit_message_text (format_profile profile) None
  else if String.eqb data "menu_utilities" then
    edit_message_text "Choose a utility:" (Some build_utility_menu_keyboard) ;;
    user_data_set "utility_mode" Py.VNone
  else if String.eqb data "menu_feedback" then
    edit_message_text "Use /feedback to send feedback message to admins." None
  else if String.eqb data "menu_admin_broadcast" then
    if negb (is_authorized (Some (uid user)))
    then edit_message_text "You are not authorized for admin actions." None
    else edit_message_text "Use /broadcast to send message to all known users." None
  else ret tt.

Definition utility_menu_handler (from_user : option User) (data : string) : M unit :=
  query_answer ;;
  if String.eqb data "util_back" then
    let keyboard := build_main_menu_keyboard (is_authorized (uid <$> from_user)) in
    edit_message_text "Main menu:" (Some keyboard) ;;
    user_data_set "utility_mode" Py.VNone
  else if String.eqb data "util_echo" then
    user_data_set "utility_mode" (Py.VStr "echo") ;;
    edit_message_text "Send text and I will echo it." None
  else if String.eqb data "util_dice" then
    let* value := ask (randint 1 6) in
    edit_message_text ("Dice rolled: " +:+ Py.str_of_int value) None ;;
    user_data_set "utility_mode" Py.VNone
  else if String.eqb data "util_random" then
    let* value := ask (randint 0 100) in
    edit_message_text ("Random number: " +:+ Py.str_of_int value) None ;;
    user_data_set "utility_mode" Py.VNone
  else ret tt.

Definition utility_text_handler (message : option string) : M unit :=
  let* mode := user_data_get "utility_mode" in
  match message with
  | Some text =>
      if Py.Val_eqb mode (Py.VStr "echo")
      then reply_text text None
      else reply_text "I do not understand. Use /help or /start." None
  | None => ret tt
  end.

Definition unknown_command : M unit :=
  reply_text "Unknown command. Use /help." None.

End Handlers.

(** ** Routing: [build_application]

    An update is a command message, a text message that is not a command,
    or a button press; each carries its sender.  (Updates without a sender
    or without a new message, such as channel posts and edits, are outside
    the model.)  The command name is the one [CommandHandler] compares,
    without the leading slash. *)

Inductive Update : Type :=
| CommandMessage (user : User) (command : string) (args : list string)
| TextMessage (user : User) (text : string)
| CallbackQuery (from_user : User) (data : string).

Definition effective_user (u : Update) : User :=
  match u with
  | CommandMessage user _ _ => user
  | TextMessage user _ => user
  | CallbackQuery user _ => user
  end.

(** The callbacks of [main.py], by the kind of update they are attached to. *)
Inductive CommandCallback : Type :=
| cb_start | cb_help_command | cb_echo_command | cb_profile_command
| cb_admin_show_feedback
| cb_register_start | cb_register_cancel
| cb_feedback_start | cb_feedback_cancel
| cb_broadcast_start | cb_broadcast_cancel
| cb_unknown_command.

Inductive MessageCallback : Type :=
| cb_register_name | cb_register_age | cb_feedback_text | cb_broadcast_text
| cb_utility_text_handler.

Inductive QueryCallback : Type :=
| cb_feedback_decision | cb_broadcast_decision
| cb_button_main_menu | cb_utility_menu_handler.

(** The handler objects: [CommandHandler(name, cb)],
    [MessageHandler(filters.TEXT & ~filters.COMMAND, cb)],
    [MessageHandler(filters.COMMAND, cb)], and
    [CallbackQueryHandler(cb, pattern)] where the pattern
    [^(a|b|...)$] is given by its alternatives. *)
Inductive Handler : Type :=
| CommandHandler (command : string) (callback : CommandCallback)
| TextHandler (callback : MessageCallback)
| AnyCommandHandler (callback : CommandCallback)
| CallbackQueryHandler (callback : QueryCallback) (pattern : list string).

Record ConversationHandler : Type := {
  entry_points : list Handler;
  states : list (Z * list Handler);
  fallbacks : list Handler
}.

Inductive ConvName : Type := register_conv | feedback_conv | broadcast_conv.

Inductive AppHandler : Type :=
| Plain (h : Handler)
| Conversation (which : ConvName) (c : ConversationHandler).

(** A callback together with the arguments it reads from the update. *)
Inductive Call : Type :=
| CallCommand (cb : CommandCallback) (user : User) (args : list string)
| CallMessage (cb : MessageCallback) (user : User) (text : string)
| CallQuery (cb : QueryCallback) (from_user : User) (data : string).

(** [re.match("^(a|b)$", data)]: [$] also matches before a final line feed. *)
Definition re_match (pattern : list string) (data : string) : bool :=
  existsb (fun alt => String.eqb data alt || String.eqb data (alt +:+ Py.nl)) pattern.

Definition check_update (h : Handler) (u : Update) : option Call :=
  match h, u with
  | CommandHandler command cb, CommandMessage user c args =>
      if String.eqb c command then Some (CallCommand cb user args) else None
  | TextHandler cb, TextMessage user text => Some (CallMessage cb user text)
  | AnyCommandHandler cb, CommandMessage user _ args => Some (CallCommand cb user args)
  | CallbackQueryHandler cb pattern, CallbackQuery user data =>
      if re_match pattern data then Some (CallQuery cb user data) else None
  | _, _ => None
  end.

(** The first handler of a list that accepts the update. *)
Fixpoint first_match (hs : list Handler) (u : Update) : option Call :=
  match hs with
  | [] => None
  | h :: rest =>
      match check_update h u with
      | Some call => Some call
      | None => first_match rest u
      end
  end.

(** [ConversationHandler.check_update] with [allow_reentry=False]: without
    a conversation only the entry points are tried; inside one, the handlers
    of the current state and then the fallbacks. *)
Definition conversation_check (c : ConversationHandler) (state : option Z) (u : Update)
  : option Call :=
  match state with
  | None => first_match (entry_points c) u
  | Some st =>
      match first_match (default [] (Py.dict_get (states c) st)) u with
      | Some call => Some call
      | None => first_match (fallbacks c) u
      end
  end.

Definition register_conversation : ConversationHandler :=
  {| entry_points := [CommandHandler "register" cb_register_start];
     states := [ (REGISTER_NAME, [TextHandler cb_register_name]);
                 (REGISTER_AGE, [TextHandler cb_register_age]) ];
     fallbacks := [CommandHandler "cancel" cb_register_cancel] |}.

Definition feedback_conversation : ConversationHandler :=
  {| entry_points := [CommandHandler "feedback" cb_feedback_start];
     states := [ (FEEDBACK_TEXT, [TextHandler cb_feedback_text]);
                 (FEEDBACK_CONFIRM,
                  [CallbackQueryHandler cb_feedback_decision
                     ["feedback_confirm:yes"; "feedback_confirm:no"]]) ];
     fallbacks := [CommandHandler "cancel" cb_feedback_cancel] |}.

Definition broadcast_conversation : ConversationHandler :=
  {| entry_points := [CommandHandler "broadcast" cb_broadcast_start];
     states := [ (BROADCAST_TEXT, [TextHandler cb_broadcast_text]);
                 (BROADCAST_CONFIRM,
                  [CallbackQueryHandler cb_broadcast_decision
                     ["broadcast_confirm:yes"; "broadcast_confirm:no"]]) ];
     fallbacks := [CommandHandler "cancel" cb_broadcast_cancel] |}.

(** The handlers in the order [build_application] adds them. *)
Definition build_application : list AppHandler :=
  [ Plain (CommandHandler "start" cb_start);
    Plain (CommandHandler "help" cb_help_command);
    Plain (CommandHandler "echo" cb_echo_command);
    Plain (CommandHandler "profile" cb_profile_command);
    Plain (CommandHandler "admin_feedback" cb_admin_show_feedback);
    Conversation register_conv register_conversation;
    Conversation feedback_conv feedback_conversation;
    Conversation broadcast_conv broadcast_conversation;
    Plain (CallbackQueryHandler cb_button_main_menu
             ["menu_profile"; "menu_utilities"; "menu_feedback"; "menu_admin_broadcast"]);
    Plain (CallbackQueryHandler cb_utility_menu_handler
             ["util_echo"; "util_dice"; "util_random"; "util_back"]);
    Plain (TextHandler cb_utility_text_handler);
    Plain (AnyCommandHandler cb_unknown_command) ].

Section Application.
Context {env : Environment} {cfg : Config}.

(** The state of the running application: the global store, the
    [user_data] of every user, the state of every conversation, the outside
    world.  A conversation is keyed by its user (each user talks to the bot
    in one chat); a user without a key is in no conversation. *)
Record App : Type := {
  app_store : InMemoryStore;
  all_user_data : gmap Z (gmap string Py.Val);
  register_states : gmap Z Z;
  feedback_states : gmap Z Z;
  broadcast_states : gmap Z Z;
  outside : Ext
}.

Definition conversations (a : App) (which : ConvName) : gmap Z Z :=
  match which with
  | register_conv => register_states a
  | feedback_conv => feedback_states a
  | broadcast_conv => broadcast_states a
  end.

(** [context.user_data] of a user: an empty dict until written. *)
Definition user_data_of (a : App) (user_id : Z) : gmap string Py.Val :=
  default ∅ (all_user_data a !! user_id).

(** The context a handler of an update from [user_id] starts in. *)
Definition context_for (a : App) (user_id : Z) : Ctx :=
  {| store := app_store a; user_data := user_data_of a user_id;
     ext := outside a; trail := [] |}.

(** The first handler that accepts the update, with the conversation it
    belongs to. *)
Fixpoint dispatch (hs : list AppHandler) (a : App) (u : Update)
  : option (option ConvName * Call) :=
  match hs with
  | [] => None
  | Plain h :: rest =>
      match check_update h u with
      | Some call => Some (None, call)
      | None => dispatch rest a u
      end
  | Conversation which c :: rest =>
      match conversation_check c (conversations a which !! uid (effective_user u)) u with
      | Some call => Some (Some which, call)
      | None => dispatch rest a u
      end
  end.

(** Running a callback; a conversation callback returns its next state. *)
Definition run_call (call : Call) : M (option Z) :=
  match call with
  | CallCommand cb user args =>
      match cb with
      | cb_start => start (Some user) ;; ret None
      | cb_help_command => help_command (Some user) ;; ret None
      | cb_echo_command => echo_command args ;; ret None
      | cb_profile_command => profile_command (Some user) ;; ret None
      | cb_admin_show_feedback => admin_show_feedback (Some user) ;; ret None
      | cb_register_start => let* st := register_start (Some user) in ret (Some st)
      | cb_register_cancel => let* st := register_cancel in ret (Some st)
      | cb_feedback_start => let* st := feedback_start in ret (Some st)
      | cb_feedback_cancel => let* st := feedback_cancel in ret (Some st)
      | cb_broadcast_start => let* st := broadcast_start (Some user) in ret (Some st)
      | cb_broadcast_cancel => let* st := broadcast_cancel in ret (Some st)
      | cb_unknown_command => unknown_command ;; ret None
      end
  | CallMessage cb user text =>
      match cb with
      | cb_register_name => let* st := register_name (Some user) (Some text) in ret (Some st)
      | cb_register_age => let* st := register_age (Some user) (Some text) in ret (Some st)
      | cb_feedback_text => let* st := feedback_text (Some user) (Some text) in ret (Some st)
      | cb_broadcast_text => let* st := broadcast_text (Some text) in ret (Some st)
      | cb_utility_text_handler => utility_text_handler (Some text) ;; ret None
      end
  | CallQuery cb user data =>
      match cb with
      | cb_feedback_decision => let* st := feedback_decision user data in ret (Some st)
      | cb_broadcast_decision => let* st := broadcast_decision (Some user) data in ret (Some st)
      | cb_button_main_menu => button_main_menu user data ;; ret None
      | cb_utility_menu_handler => utility_menu_handler (Some user) data ;; ret None
      end
  end.

(** The conversation table after a callback returned [result]: [END]
    removes the key, another state replaces it. *)
Definition update_state (m : gmap Z Z) (key : Z) (result : option Z) : gmap Z Z :=
  match result with
  | None => m
  | Some st => if Z.eqb st END then delete key m else <[key := st]> m
  end.

Definition ConvName_eqb (x y : ConvName) : bool :=
  match x, y with
  | register_conv, register_conv
  | feedback_conv, feedback_conv
  | broadcast_conv, broadcast_conv => true
  | _, _ => false
  end.

(** The table of conversation [w] after a callback of conversation [which]
    (if any) returned [result] for the user [key]. *)
Definition next_states (which : option ConvName) (key : Z) (result : option Z)
    (w : ConvName) (m : gmap Z Z) : gmap Z Z :=
  match which with
  | Some w' => if ConvName_eqb w w' then update_state m key result else m
  | None => m
  end.

Definition commit (a : App) (which : option ConvName) (key : Z)
    (result : option Z) (c : Ctx) : App :=
  {| app_store := store c;
     all_user_data := <[key := user_data c]> (all_user_data a);
     register_states := next_states which key result register_conv (register_states a);
     feedback_states := next_states which key result feedback_conv (feedback_states a);
     broadcast_states := next_states which key result broadcast_conv (broadcast_states a);
     outside := ext c |}.

(** Processing one update: the new application state and what was done.
    An update that no handler accepts changes nothing. *)
Definition process_update (a : App) (u : Update) : App * list Effect :=
  match dispatch build_application a u with
  | None => (a, [])
  | Some (which, call) =>
      let key := uid (effective_user u) in
      let (result, c) := run_call call (context_for a key) in
      (commit a which key result c, trail c)
  end.

(** A run over a list of updates, effects concatenated. *)
Fixpoint process_updates (a : App) (us : list Update) : App * list Effect :=
  match us with
  | [] => (a, [])
  | u :: rest =>
      let (a1, out1) := process_update a u in
      let (a2, out2) := process_updates a1 rest in
      (a2, out1 ++ out2)
  end.

(** The application at start-up. *)
Definition initial_app (x : Ext) : App :=
  {| app_store := empty_store; all_user_data := ∅;
     register_states := ∅; feedback_states := ∅; broadcast_states := ∅;
     outside := x |}.

End Application.

(** ** Reading a trail *)

(** The delivery attempts of a trail, in order: the chat and whether the
    message was delivered. *)
Definition attempts (es : list Effect) : list (Z * bool) :=
  omap (fun e => match e with
                 | SendMessage chat_id _ ok => Some (chat_id, ok)
                 | _ => None
                 end) es.

Definition delivered_count (es : list Effect) : Z :=
  Z.of_nat (length (filter (fun a => snd a = true) (attempts es))).

Definition failed_count (es : list Effect) : Z :=
  Z.of_nat (length (filter (fun a => snd a = false) (attempts es))).

Section Observations.
Context {env : Environment} {cfg : Config}.

(** The context after a handler that only spoke: [out] added to the trail. *)
Definition said (c : Ctx) (out : list Effect) : Ctx :=
  {| store := store c; user_data := user_data c; ext := ext c;
     trail := trail c ++ out |}.

(** The same with the key [key] popped from [user_data]. *)
Definition said_popped (c : Ctx) (key : string) (out : list Effect) : Ctx :=
  {| store := store c; user_data := Py.pop (user_data c) key; ext := ext c;
     trail := trail c ++ out |}.

(** Some conversation of the user is at a step that takes free text. *)
Definition awaits_text (a : App) (user_id : Z) : bool :=
  match register_states a !! user_id with
  | Some st => Z.eqb st REGISTER_NAME || Z.eqb st REGISTER_AGE
  | None => false
  end
  || match feedback_states a !! user_id with
     | Some st => Z.eqb st FEEDBACK_TEXT
     | None => false
     end
  || match broadcast_states a !! user_id with
     | Some st => Z.eqb st BROADCAST_TEXT
     | None => false
     end.



(** The user a callback was called for. *)
Definition call_user (call : Call) : User :=
  match call with
  | CallCommand _ user _ => user
  | CallMessage _ user _ => user
  | CallQuery _ user _ => user
  end.

(** Where the routing table may send a callback: the conversation it
    belongs to and the state that conversation is in for the user.  The
    callbacks of no conversation belong to [None]; a fallback of a later
    conversation is only reached when the earlier ones are closed. *)
Definition fits (a : App) (which : option ConvName) (call : Call) : Prop :=
  let st w := conversations a w !! uid (call_user call) in
  match call with
  | CallCommand cb_register_start _ _ =>
      which = Some register_conv /\ st register_conv = None
  | CallMessage cb_register_name _ _ =>
      which = Some register_conv /\ st register_conv = Some REGISTER_NAME
  | CallMessage cb_register_age _ _ =>
      which = Some register_conv /\ st register_conv = Some REGISTER_AGE
  | CallCommand cb_register_cancel _ _ =>
      which = Some register_conv /\ is_Some (st register_conv)
  | CallCommand cb_feedback_start _ _ =>
      which = Some feedback_conv /\ st feedback_conv = None
  | CallMessage cb_feedback_text _ _ =>
      which = Some feedback_conv /\ st feedback_conv = Some FEEDBACK_TEXT
  | CallQuery cb_feedback_decision _ _ =>
      which = Some feedback_conv /\ st feedback_conv = Some FEEDBACK_CONFIRM
  | CallCommand cb_feedback_cancel _ _ =>
      which = Some feedback_conv /\ is_Some (st feedback_conv)
      /\ st register_conv = None
  | CallCommand cb_broadcast_start _ _ =>
      which = Some broadcast_conv /\ st broadcast_conv = None
  | CallMessage cb_broadcast_text _ _ =>
      which = Some broadcast_conv /\ st broadcast_conv = Some BROADCAST_TEXT
  | CallQuery cb_broadcast_decision _ _ =>
      which = Some broadcast_conv /\ st broadcast_conv = Some BROADCAST_CONFIRM
  | CallCommand cb_broadcast_cancel _ _ =>
      which = Some broadcast_conv /\ is_Some (st broadcast_conv)
      /\ st register_conv = None /\ st feedback_conv = None
  | _ => which = None
  end.

(** The profiles are well keyed: no key twice, and the profile under a key
    carries that key as its [user_id]. *)
Definition well_keyed (s : InMemoryStore) : Prop :=
  NoDup (Py.dict_keys (profiles s))
  /\ forall k p, Py.dict_get (profiles s) k = Some p -> user_id p = k.

(** The key of [user_data] a callback may write: each flow has its own. *)
Definition written_key (call : Call) : option string :=
  match call with
  | CallMessage cb_feedback_text _ _
  | CallQuery cb_feedback_decision _ _
  | CallCommand cb_feedback_cancel _ _ => Some "pending_feedback"
  | CallMessage cb_broadcast_text _ _
  | CallQuery cb_broadcast_decision _ _
  | CallCommand cb_broadcast_cancel _ _ => Some "pending_broadcast"
  | CallQuery cb_button_main_menu _ _
  | CallQuery cb_utility_menu_handler _ _ => Some "utility_mode"
  | _ => None
  end.




(** The callback of a command that is handled outside the conversations. *)
Definition plain_callback (command : string) : option CommandCallback :=
  if String.eqb command "start" then Some cb_start
  else if String.eqb command "help" then Some cb_help_command
  else if String.eqb command "echo" then Some cb_echo_command
  else if String.eqb command "profile" then Some cb_profile_command
  else if String.eqb command "admin_feedback" then Some cb_admin_show_feedback
  else None.

(** The commands that some [CommandHandler] of the application names. *)
Definition known_command (command : string) : bool :=
  existsb (String.eqb command)
    ["start"; "help"; "echo"; "profile"; "admin_feedback";
     "register"; "feedback"; "broadcast"; "cancel"].

(** The command that opens a conversation. *)
Definition entry_command (w : ConvName) : string :=
  match w with
  | register_conv => "register"
  | feedback_conv => "feedback"
  | broadcast_conv => "broadcast"
  end.




(** The trail of the notification loop of [feedback_decision]: a failure is
    followed by a warning, a delivery by nothing. *)
Definition notify_trace (text : string) (log : list (Z * bool)) : list Effect :=
  flat_map (fun a => SendMessage (fst a) text (snd a)
                     :: (if snd a then [] else [LogWarning (fst a)])) log.


(** The text sent to the administrators for a feedback. *)
Definition feedback_notice (user : User) (text : string) : string :=
  "New feedback from " +:+ Py.str_of_int (uid user) +:+
  " (@" +:+ str_of_opt (username user) +:+ "):" +:+ Py.nl +:+ text.


(** The welcome of [start]. *)
Definition welcome_text : string :=
  "Welcome to the utility bot." +:+ Py.nl +:+
  "Use the buttons below or commands:" +:+ Py.nl +:+
  "/register, /profile, /feedback, /help".

End Observations.

(** Unfolding of the monad and of the handlers' small helpers. *)
Ltac run_handler :=
  unfold bind, ret, user_data_get, user_data_set, user_data_pop, get_user_data,
    put_user_data, get_store, put_store, query_answer, edit_message_text,
    reply_text, emit; simpl.

(** Unfolding of the routing table, one comparison at a time. *)
Ltac route_step :=
  match goal with
  | H : ?m !! ?k = _ |- context [?m !! ?k] => rewrite H
  | |- context [Z.eqb ?x ?y] => destruct (Z.eqb_spec x y); try lia
  | |- context [match ?m !! ?k with _ => _ end] => destruct (m !! k) eqn:?
  end; cbn -[Z.eqb].

Ltac route :=
  unfold dispatch, build_application, conversation_check, conversations,
    register_conversation, feedback_conversation, broadcast_conversation,
    effective_user, REGISTER_NAME, REGISTER_AGE, FEEDBACK_TEXT, FEEDBACK_CONFIRM,
    BROADCAST_TEXT, BROADCAST_CONFIRM in *;
  cbn -[Z.eqb]; repeat route_step.

(** ** A concrete environment

    Deliveries to chat 3 fail, all others succeed; the clock ticks once
    per reading; the dice always shows its low bound.  User 1 is the only
    administrator of [demo_config]; [no_admins] is the allow-list emptied. *)

Definition demo_env : Environment :=
  {| Ext := nat;
     Time := nat;
     send_message := fun chat_id _ x => (negb (Z.eqb chat_id 3), x);
     randint := fun lo _ x => (lo, x);
     time_time := fun x => (x, S x);
     strftime := fun t => pretty t |}.

Definition demo_config : Config := {| AUTH_USERS := [1] |}.


(** The application of the concrete environment at start-up. *)
Definition demo_app : @App demo_env := @initial_app demo_env 0%nat.

Abbreviation demo_update := (@process_update demo_env demo_config).
Abbreviation demo_updates := (@process_updates demo_env demo_config).

Definition alice : User := {| uid := 1; full_name := "Alice"; username := Some "alice" |}.
Definition bob : User := {| uid := 2; full_name := "Bob"; username := None |}.
Definition carol : User := {| uid := 3; full_name := "Carol"; username := Some "carol" |}.

(** The application after a list of updates, from start-up. *)
Definition demo_after (us : list Update) : @App demo_env :=
  fst (demo_updates demo_app us).

(** Alice was asked for a name; Alice gave one and was asked for an age. *)
Definition awaiting_name_app : @App demo_env :=
  demo_after [CommandMessage alice "register" []].

Definition awaiting_age_app : @App demo_env :=
  demo_after [CommandMessage alice "register" []; TextMessage alice " Alice "].

(** Bob staged a feedback; Alice, the administrator, staged a broadcast. *)
Definition feedback_confirm_app : @App demo_env :=
  demo_after [CommandMessage bob "feedback" []; TextMessage bob "hi"].


(** Bob and Alice at a confirmation step with nothing staged. *)
Definition stale_confirm_app : @App demo_env :=
  @Build_App demo_env (@empty_store demo_env) ∅ ∅
    {[ 2 := FEEDBACK_CONFIRM ]} {[ 1 := BROADCAST_CONFIRM ]} 0%nat.


Definition unnamed_bob : @UserProfile demo_env :=
  @Build_UserProfile demo_env 2 None None 0%nat.

(** A store with three profiles, the second blocked, and one feedback entry. *)
Definition demo_entry : @FeedbackEntry demo_env :=
  @Build_FeedbackEntry demo_env 2 None "hi" 0%nat.

Definition demo_store : @InMemoryStore demo_env :=
  {| profiles := [(1, @Build_UserProfile demo_env 1 (Some "Alice") None 0%nat);
                  (2, unnamed_bob);
                  (3, @Build_UserProfile demo_env 3 (Some "Carol") None 1%nat)];
     feedback := [demo_entry];
     blocked_users := {[ 2 ]} |}.

Definition demo_ctx : @Ctx demo_env :=
  @Build_Ctx demo_env demo_store ∅ 0%nat [].

(** The same with the broadcast text "Hello" staged. *)
Definition demo_staged_ctx : @Ctx demo_env :=
  @Build_Ctx demo_env demo_store {[ "pending_broadcast" := Py.VStr "Hello" ]} 0%nat [].



(** ** Properties *)

(** *** Python built-ins *)

Lemma slice_from_tail {A} (k : Z) (l : list A) :
  1 <= k -> Py.slice_from (- k) l = drop (length l - Z.to_nat k) l.
Proof.
  intros Hk. unfold Py.slice_from.
  destruct (Z.ltb_spec (- k) 0) as [_ | ?]; [| lia].
  f_equal. lia.
Qed.

Lemma slice_from_zero {A} (l : list A) : Py.slice_from (- 0) l = l.
Proof.
  unfold Py.slice_from. simpl.
  destruct (length l); reflexivity.
Qed.

Lemma dict_get_set_eq {V} (d : list (Z * V)) k v :
  Py.dict_get (Py.dict_set d k v) k = Some v.
Proof.
  induction d as [| [k' v'] d IH]; simpl.
  - rewrite Z.eqb_refl. reflexivity.
  - destruct (Z.eqb_spec k' k) as [-> | Hne]; simpl.
    + rewrite Z.eqb_refl. reflexivity.
    + destruct (Z.eqb_spec k' k); [contradiction | exact IH].
Qed.

Lemma dict_get_set_ne {V} (d : list (Z * V)) k k' v :
  k <> k' -> Py.dict_get (Py.dict_set d k v) k' = Py.dict_get d k'.
Proof.
  intros Hne. induction d as [| [k0 v0] d IH]; simpl.
  - destruct (Z.eqb_spec k k'); [contradiction | reflexivity].
  - destruct (Z.eqb_spec k0 k) as [-> | Hk]; simpl.
    + destruct (Z.eqb_spec k k'); [contradiction | reflexivity].
    + destruct (Z.eqb_spec k0 k'); [reflexivity | exact IH].
Qed.

Section Properties.
Context {env : Environment} {cfg : Config}.

(** *** The feedback log *)

Lemma get_recent_feedback_tail (s : InMemoryStore) (k : Z) :
  1 <= k ->
  get_recent_feedback s k = drop (length (feedback s) - Z.to_nat k) (feedback s).
Proof. intros Hk. unfold get_recent_feedback. apply slice_from_tail, Hk. Qed.

(** For a limit of at least one the query is the tail of the log, in
    insertion order, of at most [k] entries. *)
Lemma get_recent_feedback_bound (s : InMemoryStore) (k : Z) :
  1 <= k ->
  Z.of_nat (length (get_recent_feedback s k)) <= k
  /\ (exists older, feedback s = older ++ get_recent_feedback s k).
Proof.
  intros Hk. rewrite get_recent_feedback_tail by exact Hk. split.
  - rewrite length_drop. lia.
  - exists (take (length (feedback s) - Z.to_nat k) (feedback s)).
    symmetry. apply take_drop.
Qed.

Lemma get_recent_feedback_all (s : InMemoryStore) (k : Z) :
  1 <= k ->
  (get_recent_feedback s k = feedback s <-> Z.of_nat (length (feedback s)) <= k).
Proof.
  intros Hk. rewrite get_recent_feedback_tail by exact Hk. split.
  - intros Heq. apply (f_equal length) in Heq. rewrite length_drop in Heq. lia.
  - intros Hle. replace (length (feedback s) - Z.to_nat k)%nat with 0%nat by lia.
    reflexivity.
Qed.

(** C4.  With the limit 0 the slice [self.feedback[-0:]] is the whole log:
    the query returns every entry, not at most zero of them. *)
Theorem get_recent_feedback_limit_zero (s : InMemoryStore) :
  get_recent_feedback s 0 = feedback s.
Proof. unfold get_recent_feedback. apply slice_from_zero. Qed.

(** *** The fan-out loop *)

Lemma attempts_app (xs ys : list Effect) :
  attempts (xs ++ ys) = attempts xs ++ attempts ys.
Proof. unfold attempts. apply omap_app. Qed.


Lemma counts_send (u : Z) (text : string) (ok : bool) (es : list Effect) :
  delivered_count (SendMessage u text ok :: es)
    = (if ok then 1 else 0) + delivered_count es
  /\ failed_count (SendMessage u text ok :: es)
    = (if ok then 0 else 1) + failed_count es.
Proof.
  unfold delivered_count, failed_count.
  change (attempts (SendMessage u text ok :: es)) with ((u, ok) :: attempts es).
  rewrite !filter_cons. simpl.
  destruct ok; repeat case_decide; try congruence; simpl length; lia.
Qed.

Lemma counts_silent (e : Effect) (es : list Effect) :
  is_send e = false ->
  delivered_count (e :: es) = delivered_count es
  /\ failed_count (e :: es) = failed_count es.
Proof.
  intros He. unfold delivered_count, failed_count.
  destruct e; try discriminate He; split; reflexivity.
Qed.

(** The loop from any value of the two counters: what it adds to the trail
    holds one attempt per recipient that is not blocked, in snapshot order;
    the counters grow by the deliveries and by the failures; the store and
    [user_data] are left alone. *)
Lemma fan_out_run (targets : list Z) (text : string) :
  forall (sent failed : Z) (c : Ctx),
  exists out,
    trail (snd (fan_out targets text sent failed c)) = trail c ++ out
    /\ store (snd (fan_out targets text sent failed c)) = store c
    /\ user_data (snd (fan_out targets text sent failed c)) = user_data c
    /\ map fst (attempts out) = filter (fun u => u ∉ blocked_users (store c)) targets
    /\ fst (fst (fan_out targets text sent failed c)) = sent + delivered_count out
    /\ snd (fst (fan_out targets text sent failed c)) = failed + failed_count out.
Proof.
  induction targets as [| u rest IH]; intros sent failed c.
  - exists []. simpl. rewrite app_nil_r. unfold delivered_count, failed_count. simpl.
    repeat split; lia.
  - cbn [fan_out]. unfold bind at 1. unfold is_blocked, bind, get_store, ret. simpl.
    rewrite filter_cons.
    destruct (decide (u ∉ blocked_users (store c))) as [Hfree | Hblocked].
    + rewrite bool_decide_eq_false_2 by exact Hfree.
      unfold bot_send_message, bind, ask, emit, ret. simpl.
      destruct (send_message u text (ext c)) as [ok x] eqn:Hsend.
      destruct ok; simpl; unfold asyncio_sleep, logger_warning, emit; simpl;
        match goal with |- context [fan_out rest text ?s ?f ?c'] =>
          destruct (IH s f c') as (out & Ht & Hs & Hu & Hv & Hok & Hko) end;
        simpl in Ht, Hs, Hu, Hv; rewrite Ht, Hs, Hu, Hok, Hko.
      * exists (SendMessage u text true :: Sleep :: out).
        destruct (counts_send u text true (Sleep :: out)) as [-> ->].
        destruct (counts_silent Sleep out eq_refl) as [-> ->].
        rewrite <- !app_assoc.
        split; [reflexivity |]. split; [reflexivity |]. split; [reflexivity |].
        split; [simpl; f_equal; exact Hv |]. split; lia.
      * exists (SendMessage u text false :: LogWarning u :: out).
        destruct (counts_send u text false (LogWarning u :: out)) as [-> ->].
        destruct (counts_silent (LogWarning u) out eq_refl) as [-> ->].
        rewrite <- !app_assoc.
        split; [reflexivity |]. split; [reflexivity |]. split; [reflexivity |].
        split; [simpl; f_equal; exact Hv |]. split; lia.
    + rewrite bool_decide_eq_true_2 by (destruct (decide (u ∈ blocked_users (store c))); tauto).
      apply IH.
Qed.


(** *** The confirmation handlers *)

Lemma feedback_decision_nothing_staged (from_user : User) (data : string) (c : Ctx) :
  Py.get (user_data c) "pending_feedback" = Py.VNone ->
  feedback_decision from_user data c
  = (END, said c [Answer; EditMessage "No feedback to send." None]).
Proof.
  intros Hnone. unfold feedback_decision. run_handler. rewrite Hnone. simpl.
  unfold said. rewrite <- app_assoc. reflexivity.
Qed.

Lemma broadcast_decision_nothing_staged (from_user : option User) (data : string) (c : Ctx) :
  Py.get (user_data c) "pending_broadcast" = Py.VNone ->
  broadcast_decision from_user data c
  = (END, said c [Answer; EditMessage "No broadcast pending." None]).
Proof.
  intros Hnone. unfold broadcast_decision. run_handler. rewrite Hnone. simpl.
  unfold said. rewrite <- app_assoc. reflexivity.
Qed.





Lemma feedback_cancel_run (c : Ctx) :
  feedback_cancel c
  = (END, said_popped c "pending_feedback" [Reply "Feedback cancelled." None]).
Proof. reflexivity. Qed.

Lemma broadcast_cancel_run (c : Ctx) :
  broadcast_cancel c
  = (END, said_popped c "pending_broadcast" [Reply "Broadcast cancelled." None]).
Proof. reflexivity. Qed.

(** *** Routing *)

Lemma process_update_dispatch (a : App) (u : Update) (which : option ConvName) (call : Call) :
  dispatch build_application a u = Some (which, call) ->
  process_update a u
  = (commit a which (uid (effective_user u))
       (fst (run_call call (context_for a (uid (effective_user u)))))
       (snd (run_call call (context_for a (uid (effective_user u))))),
     trail (snd (run_call call (context_for a (uid (effective_user u)))))).
Proof.
  intros H. unfold process_update. rewrite H.
  destruct (run_call call _) as [result c]. reflexivity.
Qed.

Lemma bind_ret_some {A} (m : M A) (c : Ctx) :
  (let* st := m in ret (Some st)) c = (Some (fst (m c)), snd (m c)).
Proof. unfold bind, ret. destruct (m c). reflexivity. Qed.

Lemma bind_ret_none {A} (m : M A) (c : Ctx) :
  (m ;; ret (@None Z)) c = (None, snd (m c)).
Proof. unfold bind, ret. destruct (m c). reflexivity. Qed.

Lemma dispatch_register_cancel (a : App) (user : User) (args : list string) (st : Z) :
  register_states a !! uid user = Some st ->
  dispatch build_application a (CommandMessage user "cancel" args)
  = Some (Some register_conv, CallCommand cb_register_cancel user args).
Proof. intros H. route; reflexivity. Qed.

Lemma dispatch_register_name (a : App) (user : User) (text : string) :
  register_states a !! uid user = Some REGISTER_NAME ->
  dispatch build_application a (TextMessage user text)
  = Some (Some register_conv, CallMessage cb_register_name user text).
Proof. intros H. route; reflexivity. Qed.


Lemma dispatch_text_free (a : App) (user : User) (text : string) :
  awaits_text a (uid user) = false ->
  dispatch build_application a (TextMessage user text)
  = Some (None, CallMessage cb_utility_text_handler user text).
Proof.
  unfold awaits_text. intros H. route; try reflexivity.
  all: exfalso;
    repeat match goal with E : _ !! _ = _ |- _ => rewrite E in * end;
    subst; cbn in *; discriminate.
Qed.



Lemma dispatch_feedback_yes (a : App) (user : User) :
  feedback_states a !! uid user = Some FEEDBACK_CONFIRM ->
  dispatch build_application a (CallbackQuery user "feedback_confirm:yes")
  = Some (Some feedback_conv, CallQuery cb_feedback_decision user "feedback_confirm:yes").
Proof. intros H. route; reflexivity. Qed.


Lemma dispatch_broadcast_yes (a : App) (user : User) :
  broadcast_states a !! uid user = Some BROADCAST_CONFIRM ->
  dispatch build_application a (CallbackQuery user "broadcast_confirm:yes")
  = Some (Some broadcast_conv, CallQuery cb_broadcast_decision user "broadcast_confirm:yes").
Proof. intros H. route; reflexivity. Qed.


(** What [commit] leaves for the sender of the update. *)
Lemma user_data_of_commit (a : App) which (key : Z) result (c : Ctx) :
  user_data_of (commit a which key result c) key = user_data c.
Proof. unfold user_data_of, commit. simpl. rewrite lookup_insert_eq. reflexivity. Qed.

Lemma update_state_end (m : gmap Z Z) (key : Z) :
  update_state m key (Some END) !! key = None.
Proof. unfold update_state. simpl. apply lookup_delete_eq. Qed.

Lemma update_state_next (m : gmap Z Z) (key st : Z) :
  st <> END -> update_state m key (Some st) !! key = Some st.
Proof.
  intros Hne. unfold update_state.
  destruct (Z.eqb_spec st END); [contradiction |]. apply lookup_insert_eq.
Qed.

(** *** Confirmation with nothing staged *)

(** C10.  A confirmation callback that finds no staged text answers that
    nothing is pending and ends the conversation; it adds nothing else to
    the trail (no [SendMessage]) and leaves the store, hence the feedback
    log, [user_data] and the outside world as they were.  This holds of the
    two handlers in any context, and so of an update that reaches them. *)
Theorem decision_without_staged_text
    (from_user : User) (data : string) (c : Ctx) (a : App) :
  (Py.get (user_data c) "pending_feedback" = Py.VNone ->
   feedback_decision from_user data c
   = (END, {| store := store c; user_data := user_data c; ext := ext c;
              trail := trail c ++ [Answer; EditMessage "No feedback to send." None] |}))
  /\ (Py.get (user_data c) "pending_broadcast" = Py.VNone ->
      broadcast_decision (Some from_user) data c
      = (END, {| store := store c; user_data := user_data c; ext := ext c;
                 trail := trail c ++ [Answer; EditMessage "No broadcast pending." None] |}))
  /\ (feedback_states a !! uid from_user = Some FEEDBACK_CONFIRM ->
      Py.get (user_data_of a (uid from_user)) "pending_feedback" = Py.VNone ->
      let r := process_update a (CallbackQuery from_user "feedback_confirm:yes") in
      snd r = [Answer; EditMessage "No feedback to send." None]
      /\ app_store (fst r) = app_store a
      /\ user_data_of (fst r) (uid from_user) = user_data_of a (uid from_user)
      /\ feedback_states (fst r) !! uid from_user = None)
  /\ (broadcast_states a !! uid from_user = Some BROADCAST_CONFIRM ->
      Py.get (user_data_of a (uid from_user)) "pending_broadcast" = Py.VNone ->
      let r := process_update a (CallbackQuery from_user "broadcast_confirm:yes") in
      snd r = [Answer; EditMessage "No broadcast pending." None]
      /\ app_store (fst r) = app_store a
      /\ user_data_of (fst r) (uid from_user) = user_data_of a (uid from_user)
      /\ broadcast_states (fst r) !! uid from_user = None).
Proof.
  split; [intros Hnone; apply feedback_decision_nothing_staged, Hnone |].
  split; [intros Hnone; apply broadcast_decision_nothing_staged, Hnone |].
  split.
  - intros Hst Hnone r. subst r.
    rewrite (process_update_dispatch _ _ _ _ (dispatch_feedback_yes a from_user Hst)).
    cbn [effective_user run_call]. rewrite bind_ret_some.
    rewrite (feedback_decision_nothing_staged from_user _
               (context_for a (uid from_user)) Hnone).
    cbn [fst snd]. split; [reflexivity |]. split; [reflexivity |].
    split; [apply user_data_of_commit | apply update_state_end].
  - intros Hst Hnone r. subst r.
    rewrite (process_update_dispatch _ _ _ _ (dispatch_broadcast_yes a from_user Hst)).
    cbn [effective_user run_call]. rewrite bind_ret_some.
    rewrite (broadcast_decision_nothing_staged (Some from_user) _
               (context_for a (uid from_user)) Hnone).
    cbn [fst snd]. split; [reflexivity |]. split; [reflexivity |].
    split; [apply user_data_of_commit | apply update_state_end].
Qed.

(** *** The store *)

(** [get_or_create_profile] returns the profile now held under the key,
    keeps every profile that was there, and touches nothing but the
    profiles (and the clock, when it creates). *)
Lemma get_or_create_profile_spec (k : Z) (c : Ctx) :
  let r := get_or_create_profile k c in
  Py.dict_get (profiles (store (snd r))) k = Some (fst r)
  /\ (forall k' p, Py.dict_get (profiles (store c)) k' = Some p ->
                   Py.dict_get (profiles (store (snd r))) k' = Some p)
  /\ (forall k', k' <> k ->
                 Py.dict_get (profiles (store (snd r))) k'
                 = Py.dict_get (profiles (store c)) k')
  /\ feedback (store (snd r)) = feedback (store c)
  /\ blocked_users (store (snd r)) = blocked_users (store c)
  /\ user_data (snd r) = user_data c
  /\ trail (snd r) = trail c.
Proof.
  unfold get_or_create_profile. run_handler.
  destruct (Py.dict_get (profiles (store c)) k) as [p |] eqn:Hk; simpl.
  - repeat split; auto.
  - unfold ask. destruct (time_time (ext c)) as [now x]. simpl.
    split; [apply dict_get_set_eq |].
    split.
    { intros k' p Hp. rewrite dict_get_set_ne; [exact Hp |].
      intros ->. congruence. }
    split.
    { intros k' Hne. apply dict_get_set_ne. congruence. }
    repeat split.
Qed.

Lemma update_profile_name_spec (k : Z) (v : string) (c : Ctx) :
  let c' := snd (update_profile_name k v c) in
  (exists p, Py.dict_get (profiles (store c')) k = Some p
             /\ name p = Some v
             /\ (forall p0, Py.dict_get (profiles (store c)) k = Some p0 ->
                            user_id p = user_id p0 /\ age p = age p0
                            /\ created_at p = created_at p0))
  /\ (forall k', k' <> k ->
                 Py.dict_get (profiles (store c')) k'
                 = Py.dict_get (profiles (store c)) k')
  /\ feedback (store c') = feedback (store c)
  /\ blocked_users (store c') = blocked_users (store c)
  /\ user_data c' = user_data c
  /\ trail c' = trail c.
Proof.
  unfold update_profile_name, bind.
  pose proof (get_or_create_profile_spec k c) as H. simpl in H.
  destruct (get_or_create_profile k c) as [p c1]. simpl in H.
  destruct H as (Hget & Hkeep & Hother & Hfb & Hbl & Hud & Htr).
  unfold assign_name. run_handler.
  split.
  - eexists. split; [apply dict_get_set_eq |]. split; [reflexivity |].
    intros p0 Hp0. apply Hkeep in Hp0. rewrite Hget in Hp0.
    injection Hp0 as ->. simpl. auto.
  - split.
    { intros k' Hne. rewrite dict_get_set_ne by congruence. apply Hother, Hne. }
    auto.
Qed.

Lemma update_profile_age_spec (k : Z) (v : Z) (c : Ctx) :
  let c' := snd (update_profile_age k v c) in
  (exists p, Py.dict_get (profiles (store c')) k = Some p
             /\ age p = Some v
             /\ (forall p0, Py.dict_get (profiles (store c)) k = Some p0 ->
                            user_id p = user_id p0 /\ name p = name p0
                            /\ created_at p = created_at p0))
  /\ (forall k', k' <> k ->
                 Py.dict_get (profiles (store c')) k'
                 = Py.dict_get (profiles (store c)) k')
  /\ feedback (store c') = feedback (store c)
  /\ blocked_users (store c') = blocked_users (store c)
  /\ user_data c' = user_data c
  /\ trail c' = trail c.
Proof.
  unfold update_profile_age, bind.
  pose proof (get_or_create_profile_spec k c) as H. simpl in H.
  destruct (get_or_create_profile k c) as [p c1]. simpl in H.
  destruct H as (Hget & Hkeep & Hother & Hfb & Hbl & Hud & Htr).
  unfold assign_age. run_handler.
  split.
  - eexists. split; [apply dict_get_set_eq |]. split; [reflexivity |].
    intros p0 Hp0. apply Hkeep in Hp0. rewrite Hget in Hp0.
    injection Hp0 as ->. simpl. auto.
  - split.
    { intros k' Hne. rewrite dict_get_set_ne by congruence. apply Hother, Hne. }
    auto.
Qed.

Lemma get_or_create_profile_existing (k : Z) (p : UserProfile) (c : Ctx) :
  Py.dict_get (profiles (store c)) k = Some p ->
  get_or_create_profile k c = (p, c).
Proof.
  intros H. unfold get_or_create_profile. run_handler. rewrite H. reflexivity.
Qed.

(** *** Registration *)

Lemma register_cancel_run (c : Ctx) :
  register_cancel c = (END, said c [Reply "Registration cancelled." None]).
Proof. reflexivity. Qed.

Lemma register_name_accepted (user : User) (text : string) (c : Ctx) :
  Py.truthy (Py.strip text) = true ->
  register_name (Some user) (Some text) c
  = (REGISTER_AGE,
     said (snd (update_profile_name (uid user) (Py.strip text) c))
       [Reply "Now send your age as a number." None]).
Proof.
  intros Hname. unfold register_name. rewrite Hname. simpl.
  unfold bind at 1. destruct (update_profile_name _ _ c) as [[] c1]. reflexivity.
Qed.

(** C9.  [/cancel] at any step of a registration ends the conversation
    and leaves the store as it was; a name committed by the name step is
    therefore still on the profile after a cancellation at the age step. *)
Theorem register_cancel_keeps_commits
    (a : App) (user : User) (args : list string) (st : Z) (text : string) :
  (register_states a !! uid user = Some st ->
   let r := process_update a (CommandMessage user "cancel" args) in
   snd r = [Reply "Registration cancelled." None]
   /\ app_store (fst r) = app_store a
   /\ register_states (fst r) !! uid user = None)
  /\ (register_states a !! uid user = Some REGISTER_NAME ->
      Py.truthy (Py.strip text) = true ->
      let a1 := fst (process_update a (TextMessage user text)) in
      let a2 := fst (process_update a1 (CommandMessage user "cancel" args)) in
      register_states a1 !! uid user = Some REGISTER_AGE
      /\ register_states a2 !! uid user = None
      /\ app_store a2 = app_store a1
      /\ exists p, Py.dict_get (profiles (app_store a2)) (uid user) = Some p
                   /\ name p = Some (Py.strip text)).
Proof.
  assert (Hcancel : forall (a0 : App) (st0 : Z),
    register_states a0 !! uid user = Some st0 ->
    let r := process_update a0 (CommandMessage user "cancel" args) in
    snd r = [Reply "Registration cancelled." None]
    /\ app_store (fst r) = app_store a0
    /\ register_states (fst r) !! uid user = None).
  { intros a0 st0 Hst r. subst r.
    rewrite (process_update_dispatch _ _ _ _ (dispatch_register_cancel a0 user args st0 Hst)).
    simpl. split; [reflexivity |]. split; [reflexivity |].
    apply update_state_end. }
  split; [apply Hcancel |].
  intros Hst Hname a1 a2.
  assert (Ha1 : register_states a1 !! uid user = Some REGISTER_AGE
                /\ exists p, Py.dict_get (profiles (app_store a1)) (uid user) = Some p
                             /\ name p = Some (Py.strip text)).
  { subst a1.
    rewrite (process_update_dispatch _ _ _ _ (dispatch_register_name a user text Hst)).
    cbn [effective_user].
    assert (Hrun : run_call (CallMessage cb_register_name user text)
                     (context_for a (uid user))
                   = (Some REGISTER_AGE,
                      said (snd (update_profile_name (uid user) (Py.strip text)
                                   (context_for a (uid user))))
                        [Reply "Now send your age as a number." None])).
    { cbn [run_call]. unfold bind.
      rewrite (register_name_accepted user text _ Hname). reflexivity. }
    rewrite Hrun. cbn [fst snd].
    split.
    - cbn [commit register_states next_states ConvName_eqb].
      apply update_state_next. discriminate.
    - cbn [commit app_store said store].
      destruct (update_profile_name_spec (uid user) (Py.strip text)
                  (context_for a (uid user))) as ((p & Hp & Hn & _) & _).
      exists p. split; assumption. }
  destruct Ha1 as [Hage (p & Hp & Hn)].
  destruct (Hcancel a1 REGISTER_AGE Hage) as (_ & Hstore & Hidle).
  fold a2 in Hstore, Hidle.
  split; [exact Hage |]. split; [exact Hidle |]. split; [exact Hstore |].
  exists p. rewrite Hstore. split; assumption.
Qed.










(** *** The echo utility *)







(** *** Broadcast: the two authorization checks *)






(** *** The negative choice *)


(** *** Staged text and the confirmation state *)


(** *** Profiles *)

Lemma notify_admins_store (admins : list Z) (text : string) :
  forall c : Ctx, store (snd (notify_admins admins text c)) = store c.
Proof.
  induction admins as [| k rest IH]; intros c; [reflexivity |].
  cbn [notify_admins]. unfold bind at 1. unfold bot_send_message, bind, ask, emit, ret.
  destruct (send_message k text (ext c)) as [ok x]. destruct ok; simpl; rewrite IH; reflexivity.
Qed.


Lemma broadcast_decision_store (from_user : option User) (data : string) (c : Ctx) :
  store (snd (broadcast_decision from_user data c)) = store c.
Proof.
  unfold broadcast_decision. run_handler.
  destruct (Py.get (user_data c) "pending_broadcast"); [reflexivity |].
  destruct (is_authorized (uid <$> from_user)); [| reflexivity]. simpl.
  destruct (Py.endswith data "yes"); [| reflexivity].
  match goal with |- context [fan_out ?l ?t ?s ?f ?c1] =>
    destruct (fan_out_run l t s f c1) as (out & _ & H & _);
    destruct (fan_out l t s f c1) as [[n m] c2] end.
  simpl in *. exact H.
Qed.

Lemma utility_menu_handler_store (from_user : option User) (data : string) (c : Ctx) :
  store (snd (utility_menu_handler from_user data c)) = store c.
Proof.
  unfold utility_menu_handler. run_handler. unfold ask.
  repeat (case_match; simplify_eq; simpl); reflexivity.
Qed.











(** *** The routing table, read backwards *)

Ltac route_cases :=
  repeat match goal with
         | |- context [String.eqb ?x ?y] =>
             destruct (String.eqb x y); cbn -[Z.eqb String.eqb re_match]
         | |- context [re_match ?x ?y] =>
             destruct (re_match x y); cbn -[Z.eqb String.eqb re_match]
         | |- context [Z.eqb ?x ?y] =>
             destruct (Z.eqb_spec x y); cbn -[Z.eqb String.eqb re_match]
         | |- context [match ?m !! ?k with _ => _ end] =>
             destruct (m !! k) eqn:?; cbn -[Z.eqb String.eqb re_match]
         end.

Lemma dispatch_sound (a : App) (u : Update) (which : option ConvName) (call : Call) :
  dispatch build_application a u = Some (which, call) ->
  call_user call = effective_user u /\ fits a which call.
Proof.
  destruct u as [user command args | user text | user data];
    unfold dispatch, build_application, conversation_check, conversations,
      register_conversation, feedback_conversation, broadcast_conversation,
      effective_user;
    cbn -[Z.eqb String.eqb re_match]; route_cases;
    intros H; try discriminate H; injection H as <- <-;
    (split; [reflexivity |]); unfold fits, conversations, call_user;
    cbn -[Z.eqb];
    repeat match goal with E : _ !! _ = _ |- _ => rewrite E end;
    subst; try reflexivity; eauto.
Qed.

(** *** The store is written through its methods only *)

Section StoreSteps.
Variable R : InMemoryStore -> InMemoryStore -> Prop.
Hypothesis R_refl : forall s, R s s.
Hypothesis R_trans : forall s1 s2 s3, R s1 s2 -> R s2 s3 -> R s1 s3.
Hypothesis R_create :
  forall k c, R (store c) (store (snd (get_or_create_profile k c))).
Hypothesis R_name :
  forall k v c, R (store c) (store (snd (update_profile_name k v c))).
Hypothesis R_age :
  forall k v c, R (store c) (store (snd (update_profile_age k v c))).
Hypothesis R_feedback :
  forall e c, R (store c) (store (snd (add_feedback e c))).

Ltac store_step :=
  match goal with
  | |- context [get_or_create_profile ?k ?c] =>
      let H := fresh "Hstep" in
      pose proof (R_create k c) as H;
      destruct (get_or_create_profile k c) as [? ?]; cbn [fst snd] in H
  | |- context [update_profile_name ?k ?v ?c] =>
      let H := fresh "Hstep" in
      pose proof (R_name k v c) as H;
      destruct (update_profile_name k v c) as [[] ?]; cbn [fst snd] in H
  | |- context [update_profile_age ?k ?v ?c] =>
      let H := fresh "Hstep" in
      pose proof (R_age k v c) as H;
      destruct (update_profile_age k v c) as [[] ?]; cbn [fst snd] in H
  end.

Lemma start_store_steps (user : User) (c : Ctx) :
  R (store c) (store (snd (start (Some user) c))).
Proof.
  unfold start. unfold bind at 1. store_step.
  destruct (name u) as [n |]; [exact Hstep |].
  destruct (Py.truthy (full_name user)); [| exact Hstep].
  unfold bind. store_step. simpl. eapply R_trans; eassumption.
Qed.

Lemma register_name_store_steps (user : User) (text : string) (c : Ctx) :
  R (store c) (store (snd (register_name (Some user) (Some text) c))).
Proof.
  unfold register_name.
  destruct (Py.truthy (Py.strip text)); cbn [negb]; [| apply R_refl].
  unfold bind at 1. store_step. exact Hstep.
Qed.

Lemma register_age_store_steps (user : User) (text : string) (c : Ctx) :
  R (store c) (store (snd (register_age (Some user) (Some text) c))).
Proof.
  unfold register_age.
  destruct (Py.int (Py.strip text)) as [n |]; [| apply R_refl].
  destruct ((n <=? 0) || (n >? 120)); [apply R_refl |].
  unfold bind at 1. store_step. unfold bind at 1. store_step.
  simpl. eapply R_trans; eassumption.
Qed.

Lemma feedback_decision_store_steps (from_user : User) (data : string) (c : Ctx) :
  R (store c) (store (snd (feedback_decision from_user data c))).
Proof.
  unfold feedback_decision. unfold bind at 1. unfold query_answer, emit.
  unfold bind at 1. unfold user_data_get, bind, get_user_data, ret. cbn [fst snd user_data].
  destruct (Py.get (user_data c) "pending_feedback"); [apply R_refl |].
  destruct (Py.endswith data "yes"); [| apply R_refl].
  unfold ask. cbn [ext]. destruct (time_time (ext c)) as [now x].
  match goal with |- context [add_feedback ?e ?c1] =>
    pose proof (R_feedback e c1) as Hfb;
    destruct (add_feedback e c1) as [[] c2] end.
  match goal with |- context [notify_admins ?l ?t ?c1] =>
    pose proof (notify_admins_store l t c1) as Hn;
    destruct (notify_admins l t c1) as [[] c3] end.
  run_handler. cbn [fst snd store] in *. rewrite Hn. exact Hfb.
Qed.

(** Whatever the callback, the store it leaves is reached from the store
    it found by steps of [get_or_create_profile], [update_profile_name],
    [update_profile_age] and [add_feedback]. *)
Lemma run_call_store_steps (call : Call) (c : Ctx) :
  R (store c) (store (snd (run_call call c))).
Proof.
  assert (Hsame : store (snd (run_call call c)) = store c ->
                  R (store c) (store (snd (run_call call c)))).
  { intros ->. apply R_refl. }
  destruct call as [cb user args | cb user text | cb user data]; destruct cb;
    cbn [run_call] in *; rewrite ?bind_ret_some, ?bind_ret_none in *.
  - apply start_store_steps.
  - apply Hsame. reflexivity.
  - apply Hsame. unfold echo_command. destruct args; reflexivity.
  - unfold profile_command, bind. store_step. exact Hstep.
  - apply Hsame. unfold admin_show_feedback. run_handler.
    repeat (case_match; simplify_eq; simpl); reflexivity.
  - unfold register_start, bind. store_step.
    destruct (name u) as [n |]; [destruct (Py.truthy n) |]; exact Hstep.
  - apply Hsame. reflexivity.
  - apply Hsame. reflexivity.
  - apply Hsame. reflexivity.
  - apply Hsame. unfold broadcast_start.
    repeat (case_match; simplify_eq; simpl); reflexivity.
  - apply Hsame. reflexivity.
  - apply Hsame. reflexivity.
  - apply register_name_store_steps.
  - apply register_age_store_steps.
  - apply Hsame. unfold feedback_text. run_handler.
    repeat (case_match; simplify_eq; simpl); reflexivity.
  - apply Hsame. unfold broadcast_text. run_handler.
    repeat (case_match; simplify_eq; simpl); reflexivity.
  - apply Hsame. unfold utility_text_handler. run_handler.
    repeat (case_match; simplify_eq; simpl); reflexivity.
  - apply feedback_decision_store_steps.
  - apply Hsame. apply broadcast_decision_store.
  - unfold button_main_menu. unfold bind at 1. unfold query_answer, emit.
    destruct (String.eqb data "menu_profile").
    + unfold bind. store_step. exact Hstep.
    + run_handler. repeat (case_match; simplify_eq; simpl); apply R_refl.
  - apply Hsame. apply utility_menu_handler_store.
Qed.

Lemma process_update_store_steps (a : App) (u : Update) :
  R (app_store a) (app_store (fst (process_update a u))).
Proof.
  unfold process_update.
  destruct (dispatch build_application a u) as [[which call] |]; [| apply R_refl].
  pose proof (run_call_store_steps call (context_for a (uid (effective_user u)))) as H.
  destruct (run_call call _) as [result c]. exact H.
Qed.

Lemma process_updates_store_steps (us : list Update) :
  forall a : App, R (app_store a) (app_store (fst (process_updates a us))).
Proof.
  induction us as [| u rest IH]; intros a; [apply R_refl |].
  cbn [process_updates].
  pose proof (process_update_store_steps a u) as H1.
  destruct (process_update a u) as [a1 out1]. cbn [fst] in H1.
  pose proof (IH a1) as H2.
  destruct (process_updates a1 rest) as [a2 out2]. cbn [fst] in *.
  eapply R_trans; eassumption.
Qed.

End StoreSteps.

(** *** What no update does to the store *)

Lemma update_profile_name_rest (k : Z) (v : string) (c : Ctx) :
  feedback (store (snd (update_profile_name k v c))) = feedback (store c)
  /\ blocked_users (store (snd (update_profile_name k v c))) = blocked_users (store c).
Proof.
  destruct (update_profile_name_spec k v c) as (_ & _ & Hfb & Hbl & _). auto.
Qed.

Lemma update_profile_age_rest (k : Z) (v : Z) (c : Ctx) :
  feedback (store (snd (update_profile_age k v c))) = feedback (store c)
  /\ blocked_users (store (snd (update_profile_age k v c))) = blocked_users (store c).
Proof.
  destruct (update_profile_age_spec k v c) as (_ & _ & Hfb & Hbl & _). auto.
Qed.

Lemma get_or_create_profile_rest (k : Z) (c : Ctx) :
  feedback (store (snd (get_or_create_profile k c))) = feedback (store c)
  /\ blocked_users (store (snd (get_or_create_profile k c))) = blocked_users (store c).
Proof.
  destruct (get_or_create_profile_spec k c) as (_ & _ & _ & Hfb & Hbl & _). auto.
Qed.

(** X1.  The feedback log is append-only: whatever updates are processed,
    the log found before is the beginning of the log found after, entry
    for entry. *)
Theorem feedback_log_only_grows (a : App) (us : list Update) :
  exists newer,
    feedback (app_store (fst (process_updates a us)))
    = feedback (app_store a) ++ newer.
Proof.
  apply (process_updates_store_steps
           (fun s s' => exists newer, feedback s' = feedback s ++ newer)).
  - intros s. exists []. symmetry. apply app_nil_r.
  - intros s1 s2 s3 [n1 H1] [n2 H2]. exists (n1 ++ n2).
    rewrite H2, H1. symmetry. apply app_assoc.
  - intros k c. exists []. rewrite app_nil_r. apply get_or_create_profile_rest.
  - intros k v c. exists []. rewrite app_nil_r. apply update_profile_name_rest.
  - intros k v c. exists []. rewrite app_nil_r. apply update_profile_age_rest.
  - intros e c. exists [e]. reflexivity.
Qed.

(** X2.  No handler blocks or unblocks anybody: the set of blocked users
    is the same after any run of updates. *)
Theorem blocklist_never_changes (a : App) (us : list Update) :
  blocked_users (app_store (fst (process_updates a us))) = blocked_users (app_store a).
Proof.
  apply (process_updates_store_steps
           (fun s s' => blocked_users s' = blocked_users s)).
  - reflexivity.
  - intros s1 s2 s3 H1 H2. congruence.
  - intros k c. apply get_or_create_profile_rest.
  - intros k v c. apply update_profile_name_rest.
  - intros k v c. apply update_profile_age_rest.
  - intros e c. reflexivity.
Qed.

(** *** Keys of the profiles *)

Lemma dict_keys_set {V} (d : list (Z * V)) (k : Z) (v : V) :
  Py.dict_keys (Py.dict_set d k v)
  = if Py.dict_in d k then Py.dict_keys d else Py.dict_keys d ++ [k].
Proof.
  unfold Py.dict_in, Py.dict_keys.
  induction d as [| [k' v'] d IH]; simpl; [reflexivity |].
  destruct (Z.eqb_spec k' k) as [-> | Hne]; simpl; [reflexivity |].
  rewrite IH. destruct (Py.dict_get d k); reflexivity.
Qed.

Lemma dict_get_None_keys {V} (d : list (Z * V)) (k : Z) :
  Py.dict_get d k = None -> k ∉ Py.dict_keys d.
Proof.
  unfold Py.dict_keys. induction d as [| [k' v'] d IH]; simpl; intros H.
  - apply not_elem_of_nil.
  - destruct (Z.eqb_spec k' k) as [-> | Hne]; [discriminate |].
    apply not_elem_of_cons. split; [congruence | apply IH, H].
Qed.

Lemma well_keyed_set (s : InMemoryStore) (k : Z) (p : UserProfile) :
  well_keyed s -> user_id p = k ->
  well_keyed {| profiles := Py.dict_set (profiles s) k p;
                feedback := feedback s; blocked_users := blocked_users s |}.
Proof.
  intros [Hnodup Hid] Hp. split; simpl.
  - rewrite dict_keys_set. unfold Py.dict_in.
    destruct (Py.dict_get (profiles s) k) eqn:Hk; [exact Hnodup |].
    apply NoDup_app. split; [exact Hnodup |]. split.
    + intros x Hx Hx'. apply list_elem_of_singleton in Hx'. subst x.
      exact (dict_get_None_keys _ _ Hk Hx).
    + apply NoDup_singleton.
  - intros k' p' Hget. destruct (decide (k = k')) as [<- | Hne].
    + rewrite dict_get_set_eq in Hget. congruence.
    + rewrite dict_get_set_ne in Hget by exact Hne. apply Hid, Hget.
Qed.

Lemma get_or_create_profile_well_keyed (k : Z) (c : Ctx) :
  well_keyed (store c) ->
  well_keyed (store (snd (get_or_create_profile k c)))
  /\ user_id (fst (get_or_create_profile k c)) = k.
Proof.
  intros Hwk. unfold get_or_create_profile. run_handler.
  destruct (Py.dict_get (profiles (store c)) k) as [p |] eqn:Hk; simpl.
  - split; [exact Hwk | apply Hwk, Hk].
  - unfold ask. destruct (time_time (ext c)) as [now x]. simpl.
    split; [| reflexivity]. apply well_keyed_set; [exact Hwk | reflexivity].
Qed.

Lemma update_profile_name_well_keyed (k : Z) (v : string) (c : Ctx) :
  well_keyed (store c) -> well_keyed (store (snd (update_profile_name k v c))).
Proof.
  intros Hwk. unfold update_profile_name, bind.
  destruct (get_or_create_profile_well_keyed k c Hwk) as [Hwk1 Hid].
  destruct (get_or_create_profile k c) as [p c1]. cbn [fst snd] in *.
  unfold assign_name. run_handler. apply well_keyed_set; assumption.
Qed.

Lemma update_profile_age_well_keyed (k : Z) (v : Z) (c : Ctx) :
  well_keyed (store c) -> well_keyed (store (snd (update_profile_age k v c))).
Proof.
  intros Hwk. unfold update_profile_age, bind.
  destruct (get_or_create_profile_well_keyed k c Hwk) as [Hwk1 Hid].
  destruct (get_or_create_profile k c) as [p c1]. cbn [fst snd] in *.
  unfold assign_age. run_handler. apply well_keyed_set; assumption.
Qed.

Lemma process_updates_well_keyed (a : App) (us : list Update) :
  well_keyed (app_store a) -> well_keyed (app_store (fst (process_updates a us))).
Proof.
  apply (process_updates_store_steps (fun s s' => well_keyed s -> well_keyed s')).
  - auto.
  - auto.
  - intros k c H. apply get_or_create_profile_well_keyed, H.
  - intros k v c. apply update_profile_name_well_keyed.
  - intros k v c. apply update_profile_age_well_keyed.
  - intros e c [H1 H2]. split; assumption.
Qed.

(** X3.  In every state the application reaches from start-up the profiles
    are well keyed: no user has two profiles, and the profile of a user
    carries that user's id. *)
Theorem reachable_store_well_keyed (x : Ext) (us : list Update) :
  well_keyed (app_store (fst (process_updates (initial_app x) us))).
Proof.
  apply process_updates_well_keyed. split; simpl.
  - apply NoDup_nil_2.
  - intros k p H. discriminate H.
Qed.

(** *** Sessions are per user *)




(** *** Each flow keeps to its own key of [user_data] *)

Lemma notify_admins_user_data (admins : list Z) (text : string) :
  forall c : Ctx, user_data (snd (notify_admins admins text c)) = user_data c.
Proof.
  induction admins as [| k rest IH]; intros c; [reflexivity |].
  cbn [notify_admins]. unfold bind at 1. unfold bot_send_message, bind, ask, emit, ret.
  destruct (send_message k text (ext c)) as [ok x]. destruct ok; simpl; rewrite IH; reflexivity.
Qed.

Lemma get_or_create_profile_user_data (k : Z) (c : Ctx) :
  user_data (snd (get_or_create_profile k c)) = user_data c.
Proof. destruct (get_or_create_profile_spec k c) as (_ & _ & _ & _ & _ & H & _). exact H. Qed.

Lemma update_profile_name_user_data (k : Z) (v : string) (c : Ctx) :
  user_data (snd (update_profile_name k v c)) = user_data c.
Proof. destruct (update_profile_name_spec k v c) as (_ & _ & _ & _ & H & _). exact H. Qed.

Lemma update_profile_age_user_data (k : Z) (v : Z) (c : Ctx) :
  user_data (snd (update_profile_age k v c)) = user_data c.
Proof. destruct (update_profile_age_spec k v c) as (_ & _ & _ & _ & H & _). exact H. Qed.

Ltac user_data_step :=
  match goal with
  | |- context [get_or_create_profile ?k ?c] =>
      let H := fresh "Hud" in
      pose proof (get_or_create_profile_user_data k c) as H;
      destruct (get_or_create_profile k c) as [? ?]; cbn [fst snd] in H
  | |- context [update_profile_name ?k ?v ?c] =>
      let H := fresh "Hud" in
      pose proof (update_profile_name_user_data k v c) as H;
      destruct (update_profile_name k v c) as [[] ?]; cbn [fst snd] in H
  | |- context [update_profile_age ?k ?v ?c] =>
      let H := fresh "Hud" in
      pose proof (update_profile_age_user_data k v c) as H;
      destruct (update_profile_age k v c) as [[] ?]; cbn [fst snd] in H
  end.

(** A callback leaves every key of [user_data] but its own as it was. *)
Lemma run_call_user_data_frame (call : Call) (c : Ctx) (key : string) :
  written_key call <> Some key ->
  user_data (snd (run_call call c)) !! key = user_data c !! key.
Proof.
  intros Hkey.
  assert (Hsame : user_data (snd (run_call call c)) = user_data c ->
                  user_data (snd (run_call call c)) !! key = user_data c !! key)
    by (intros ->; reflexivity).
  destruct call as [cb user args | cb user text | cb user data]; destruct cb;
    cbn [run_call written_key] in *; rewrite ?bind_ret_some, ?bind_ret_none in *;
    cbn [snd] in *.
  - apply Hsame. unfold start. unfold bind at 1. user_data_step.
    destruct (name u) as [n |]; [exact Hud |].
    destruct (Py.truthy (full_name user)); [| exact Hud].
    unfold bind. user_data_step. simpl. congruence.
  - apply Hsame. reflexivity.
  - apply Hsame. unfold echo_command. destruct args; reflexivity.
  - apply Hsame. unfold profile_command, bind. user_data_step. exact Hud.
  - apply Hsame. unfold admin_show_feedback. run_handler.
    repeat (case_match; simplify_eq; simpl); reflexivity.
  - apply Hsame. unfold register_start, bind. user_data_step.
    destruct (name u) as [n |]; [destruct (Py.truthy n) |]; exact Hud.
  - apply Hsame. reflexivity.
  - apply Hsame. reflexivity.
  - unfold feedback_cancel. run_handler. unfold Py.pop.
    apply lookup_delete_ne. congruence.
  - apply Hsame. unfold broadcast_start.
    repeat (case_match; simplify_eq; simpl); reflexivity.
  - unfold broadcast_cancel. run_handler. unfold Py.pop.
    apply lookup_delete_ne. congruence.
  - apply Hsame. reflexivity.
  - apply Hsame. unfold register_name.
    destruct (Py.truthy (Py.strip text)); cbn [negb]; [| reflexivity].
    unfold bind at 1. user_data_step. exact Hud.
  - apply Hsame. unfold register_age.
    destruct (Py.int (Py.strip text)) as [n |]; [| reflexivity].
    destruct ((n <=? 0) || (n >? 120)); [reflexivity |].
    unfold bind at 1. user_data_step. unfold bind at 1. user_data_step.
    simpl. congruence.
  - unfold feedback_text. destruct (Py.truthy (Py.strip text)); cbn [negb]; [| reflexivity].
    run_handler. apply lookup_insert_ne. congruence.
  - unfold broadcast_text. destruct (Py.truthy (Py.strip text)); cbn [negb]; [| reflexivity].
    run_handler. apply lookup_insert_ne. congruence.
  - apply Hsame. unfold utility_text_handler. run_handler.
    repeat (case_match; simplify_eq; simpl); reflexivity.
  - unfold feedback_decision. run_handler.
    destruct (Py.get (user_data c) "pending_feedback"); [reflexivity |].
    destruct (Py.endswith data "yes").
    + unfold ask, add_feedback. run_handler.
      destruct (time_time (ext c)) as [now x]. simpl.
      match goal with |- context [notify_admins ?l ?t ?c1] =>
        pose proof (notify_admins_user_data l t c1) as Hn;
        destruct (notify_admins l t c1) as [[] c2] end.
      simpl in *. rewrite Hn. unfold Py.pop. apply lookup_delete_ne. congruence.
    + simpl. unfold Py.pop. apply lookup_delete_ne. congruence.
  - unfold broadcast_decision. run_handler.
    destruct (Py.get (user_data c) "pending_broadcast"); [reflexivity |].
    match goal with |- context [negb ?b] => destruct b end; [| reflexivity]. simpl.
    destruct (Py.endswith data "yes").
    + match goal with |- context [fan_out ?l ?t ?s ?f ?c1] =>
        destruct (fan_out_run l t s f c1) as (out & _ & _ & Hu & _);
        destruct (fan_out l t s f c1) as [[n m] c2] end.
      simpl in *. rewrite Hu. unfold Py.pop. apply lookup_delete_ne. congruence.
    + simpl. unfold Py.pop. apply lookup_delete_ne. congruence.
  - unfold button_main_menu. unfold bind at 1. unfold query_answer, emit.
    destruct (String.eqb data "menu_profile").
    + unfold bind. user_data_step. simpl. rewrite Hud. reflexivity.
    + run_handler. repeat (case_match; simplify_eq; simpl); try reflexivity.
      apply lookup_insert_ne. congruence.
  - unfold utility_menu_handler. run_handler. unfold ask.
    repeat (case_match; simplify_eq; simpl); try reflexivity;
      apply lookup_insert_ne; congruence.
Qed.


(** X5.  The three kinds of staged data never interfere: an update leaves
    every key of the sender's [user_data] untouched except the one key that
    belongs to the flow of the callback it was routed to (none for the
    callbacks that stage nothing). *)
Theorem flows_keep_to_their_key
    (a : App) (u : Update) (which : option ConvName) (call : Call) (key : string) :
  dispatch build_application a u = Some (which, call) ->
  written_key call <> Some key ->
  user_data_of (fst (process_update a u)) (uid (effective_user u)) !! key
  = user_data_of a (uid (effective_user u)) !! key.
Proof.
  intros Hd Hkey. rewrite (process_update_dispatch _ _ _ _ Hd). cbn [fst].
  rewrite user_data_of_commit.
  apply (run_call_user_data_frame call (context_for a (uid (effective_user u))) key Hkey).
Qed.

(** *** Staged text and conversation state agree *)

Lemma get_popped (d : gmap string Py.Val) (key : string) :
  Py.get (Py.pop d key) key = Py.VNone.
Proof. unfold Py.get, Py.pop. rewrite lookup_delete_eq. reflexivity. Qed.




(** Whatever the button, [feedback_decision] ends the conversation with
    nothing staged. *)
Lemma feedback_decision_ends (from_user : User) (data : string) (c : Ctx) :
  fst (feedback_decision from_user data c) = END
  /\ Py.get (user_data (snd (feedback_decision from_user data c))) "pending_feedback"
     = Py.VNone.
Proof.
  unfold feedback_decision. run_handler.
  destruct (Py.get (user_data c) "pending_feedback") eqn:Hstaged; [auto |].
  destruct (Py.endswith data "yes").
  - unfold ask, add_feedback. run_handler.
    destruct (time_time (ext c)) as [now x]. simpl.
    match goal with |- context [notify_admins ?l ?t ?c1] =>
      destruct (notify_admins l t c1) as [[] c2] end.
    simpl. split; [reflexivity | apply get_popped].
  - simpl. split; [reflexivity | apply get_popped].
Qed.










(** *** Commands outside and inside the conversations *)

(** X8.  The routing table read backwards: when an update is routed to a
    callback of a conversation, the sender's conversation is in the state
    that callback is registered for (none for the entry command, any for
    [/cancel]); [/cancel] reaches the feedback conversation only when no
    registration is open, and the broadcast conversation only when neither
    of the other two is; the callbacks of no conversation are routed
    outside all of them. *)
Theorem callbacks_run_in_their_state
    (a : App) (u : Update) (which : option ConvName) (call : Call) :
  dispatch build_application a u = Some (which, call) ->
  call_user call = effective_user u /\ fits a which call.
Proof. apply dispatch_sound. Qed.

Lemma commit_plain (a : App) (key : Z) (result : option Z) (c : Ctx) (w : ConvName) :
  conversations (commit a None key result c) w = conversations a w.
Proof. destruct w; reflexivity. Qed.

Lemma dispatch_plain_command (a : App) (user : User) (command : string)
    (args : list string) (cb : CommandCallback) :
  plain_callback command = Some cb ->
  dispatch build_application a (CommandMessage user command args)
  = Some (None, CallCommand cb user args).
Proof.
  unfold plain_callback, dispatch, build_application, check_update.
  cbn -[String.eqb].
  repeat match goal with
         | |- context [String.eqb command ?y] => destruct (String.eqb command y)
         end;
    intros H; try discriminate H; injection H as <-; reflexivity.
Qed.

Lemma plain_callback_user_data (command : string) (cb : CommandCallback)
    (user : User) (args : list string) (c : Ctx) :
  plain_callback command = Some cb ->
  user_data (snd (run_call (CallCommand cb user args) c)) = user_data c.
Proof.
  intros Hcb. apply map_eq. intros key.
  apply run_call_user_data_frame.
  unfold plain_callback in Hcb.
  repeat match type of Hcb with
         | context [String.eqb command ?y] => destruct (String.eqb command y)
         end;
    try discriminate Hcb; injection Hcb as <-; discriminate.
Qed.

(** X9.  [/start], [/help], [/echo], [/profile] and [/admin_feedback] are
    answered in any state of the sender's conversations and interrupt none
    of them: after the update every conversation is in the state it was in,
    and the sender's [user_data], staged texts included, is the same. *)
Theorem plain_commands_interrupt_nothing
    (a : App) (user : User) (command : string) (args : list string)
    (cb : CommandCallback) (w : ConvName) :
  plain_callback command = Some cb ->
  let r := process_update a (CommandMessage user command args) in
  dispatch build_application a (CommandMessage user command args)
    = Some (None, CallCommand cb user args)
  /\ conversations (fst r) w = conversations a w
  /\ user_data_of (fst r) (uid user) = user_data_of a (uid user).
Proof.
  intros Hcb r. subst r.
  pose proof (dispatch_plain_command a user command args cb Hcb) as Hd.
  split; [exact Hd |].
  rewrite (process_update_dispatch _ _ _ _ Hd). cbn [fst effective_user].
  split; [apply commit_plain |].
  rewrite user_data_of_commit.
  exact (plain_callback_user_data command cb user args (context_for a (uid user)) Hcb).
Qed.

(** An update routed to [unknown_command] is answered by the hint and
    changes nothing. *)
Lemma unknown_command_run (a : App) (user : User) (command : string) (args : list string) :
  dispatch build_application a (CommandMessage user command args)
    = Some (None, CallCommand cb_unknown_command user args) ->
  let r := process_update a (CommandMessage user command args) in
  snd r = [Reply "Unknown command. Use /help." None]
  /\ app_store (fst r) = app_store a
  /\ (forall w, conversations (fst r) w = conversations a w)
  /\ user_data_of (fst r) (uid user) = user_data_of a (uid user).
Proof.
  intros Hd r. subst r. rewrite (process_update_dispatch _ _ _ _ Hd).
  cbn [fst snd effective_user run_call]. rewrite bind_ret_none. cbn.
  split; [reflexivity |]. split; [reflexivity |].
  split; [intros w; apply commit_plain |].
  apply user_data_of_commit.
Qed.

Lemma dispatch_unknown_command (a : App) (user : User) (command : string)
    (args : list string) :
  known_command command = false ->
  dispatch build_application a (CommandMessage user command args)
  = Some (None, CallCommand cb_unknown_command user args).
Proof.
  unfold known_command. cbn -[String.eqb]. intros Hk.
  repeat (apply orb_false_iff in Hk; destruct Hk as [? Hk]).
  unfold dispatch, build_application, conversation_check, conversations,
    register_conversation, feedback_conversation, broadcast_conversation,
    effective_user.
  cbn -[Z.eqb String.eqb].
  repeat match goal with H : String.eqb _ _ = false |- _ => rewrite H; clear H end.
  cbn -[Z.eqb String.eqb]. route_cases; reflexivity.
Qed.

(** X10.  A command that no handler names is answered by
    "Unknown command. Use /help." in any state, and changes neither the
    store nor any conversation nor the sender's [user_data]. *)
Theorem unknown_command_changes_nothing
    (a : App) (user : User) (command : string) (args : list string) :
  known_command command = false ->
  let r := process_update a (CommandMessage user command args) in
  snd r = [Reply "Unknown command. Use /help." None]
  /\ app_store (fst r) = app_store a
  /\ (forall w, conversations (fst r) w = conversations a w)
  /\ user_data_of (fst r) (uid user) = user_data_of a (uid user).
Proof.
  intros Hk. apply unknown_command_run, dispatch_unknown_command, Hk.
Qed.

Lemma dispatch_cancel_idle (a : App) (user : User) (args : list string) :
  (forall w, conversations a w !! uid user = None) ->
  dispatch build_application a (CommandMessage user "cancel" args)
  = Some (None, CallCommand cb_unknown_command user args).
Proof.
  intros Hidle.
  pose proof (Hidle register_conv) as H1. pose proof (Hidle feedback_conv) as H2.
  pose proof (Hidle broadcast_conv) as H3. cbn [conversations] in H1, H2, H3.
  route; reflexivity.
Qed.

(** X11.  [/cancel] from a user who is in no conversation cancels nothing:
    it is an unknown command. *)
Theorem cancel_without_conversation (a : App) (user : User) (args : list string) :
  (forall w, conversations a w !! uid user = None) ->
  let r := process_update a (CommandMessage user "cancel" args) in
  snd r = [Reply "Unknown command. Use /help." None]
  /\ app_store (fst r) = app_store a
  /\ (forall w, conversations (fst r) w = conversations a w)
  /\ user_data_of (fst r) (uid user) = user_data_of a (uid user).
Proof.
  intros Hidle. apply unknown_command_run, dispatch_cancel_idle, Hidle.
Qed.

Lemma dispatch_no_reentry (a : App) (user : User) (w : ConvName) (st : Z)
    (args : list string) :
  conversations a w !! uid user = Some st ->
  dispatch build_application a (CommandMessage user (entry_command w) args)
  = Some (None, CallCommand cb_unknown_command user args).
Proof.
  intros Hst. destruct w; cbn [conversations entry_command] in *; route; reflexivity.
Qed.

(** X12.  A conversation is not re-entered: the command that opens it,
    sent by a user who is already inside it, is an unknown command and the
    conversation stays in the state it was in. *)
Theorem entry_command_inside_conversation
    (a : App) (user : User) (w : ConvName) (st : Z) (args : list string) :
  conversations a w !! uid user = Some st ->
  let r := process_update a (CommandMessage user (entry_command w) args) in
  snd r = [Reply "Unknown command. Use /help." None]
  /\ app_store (fst r) = app_store a
  /\ conversations (fst r) w !! uid user = Some st
  /\ user_data_of (fst r) (uid user) = user_data_of a (uid user).
Proof.
  intros Hst r. subst r.
  destruct (unknown_command_run a user (entry_command w) args
              (dispatch_no_reentry a user w st args Hst)) as (H1 & H2 & H3 & H4).
  split; [exact H1 |]. split; [exact H2 |]. split; [| exact H4].
  rewrite H3. exact Hst.
Qed.

(** *** Conversations side by side, stale buttons, stray text *)

Lemma dispatch_register_command (a : App) (user : User) (args : list string) :
  register_states a !! uid user = None ->
  dispatch build_application a (CommandMessage user "register" args)
  = Some (Some register_conv, CallCommand cb_register_start user args).
Proof. intros H. route; reflexivity. Qed.

Lemma register_start_run (user : User) (c : Ctx) :
  fst (register_start (Some user) c) = REGISTER_NAME
  /\ user_data (snd (register_start (Some user) c)) = user_data c.
Proof.
  unfold register_start, bind.
  pose proof (get_or_create_profile_user_data (uid user) c) as H.
  destruct (get_or_create_profile (uid user) c) as [q c1]. cbn [fst snd] in H.
  destruct (name q) as [n |]; [destruct (Py.truthy n) |]; simpl; auto.
Qed.

(** X13.  The conversations run side by side.  A user whose feedback
    conversation is open (in any state, with whatever is staged) and who
    sends [/register] is now also in the registration, with the feedback
    conversation and the sender's [user_data] as they were; and [/cancel]
    then closes the registration only. *)
Theorem conversations_coexist
    (a : App) (user : User) (st : Z) (args args' : list string) :
  register_states a !! uid user = None ->
  feedback_states a !! uid user = Some st ->
  let a1 := fst (process_update a (CommandMessage user "register" args)) in
  let a2 := fst (process_update a1 (CommandMessage user "cancel" args')) in
  register_states a1 !! uid user = Some REGISTER_NAME
  /\ feedback_states a1 !! uid user = Some st
  /\ user_data_of a1 (uid user) = user_data_of a (uid user)
  /\ register_states a2 !! uid user = None
  /\ feedback_states a2 !! uid user = Some st
  /\ user_data_of a2 (uid user) = user_data_of a (uid user).
Proof.
  intros Hreg Hfb a1 a2.
  assert (H1 : register_states a1 !! uid user = Some REGISTER_NAME
               /\ feedback_states a1 !! uid user = Some st
               /\ user_data_of a1 (uid user) = user_data_of a (uid user)).
  { subst a1.
    rewrite (process_update_dispatch _ _ _ _ (dispatch_register_command a user args Hreg)).
    cbn [fst effective_user run_call]. rewrite bind_ret_some. cbn [fst snd].
    destruct (register_start_run user (context_for a (uid user))) as [-> Hud].
    split; [apply update_state_next; discriminate |].
    split; [exact Hfb |].
    rewrite user_data_of_commit. exact Hud. }
  destruct H1 as (Hr1 & Hf1 & Hu1).
  split; [exact Hr1 |]. split; [exact Hf1 |]. split; [exact Hu1 |].
  subst a2.
  rewrite (process_update_dispatch _ _ _ _
             (dispatch_register_cancel a1 user args' REGISTER_NAME Hr1)).
  cbn [fst effective_user run_call]. rewrite bind_ret_some. cbn [fst snd].
  split; [apply update_state_end |]. split; [exact Hf1 |].
  rewrite user_data_of_commit. exact Hu1.
Qed.

Lemma dispatch_stale_feedback_button (a : App) (user : User) (data : string) :
  feedback_states a !! uid user <> Some FEEDBACK_CONFIRM ->
  data = "feedback_confirm:yes" \/ data = "feedback_confirm:no" ->
  dispatch build_application a (CallbackQuery user data) = None.
Proof.
  intros Hst [-> | ->]; route; try reflexivity; exfalso; apply Hst; congruence.
Qed.

Lemma dispatch_stale_broadcast_button (a : App) (user : User) (data : string) :
  broadcast_states a !! uid user <> Some BROADCAST_CONFIRM ->
  data = "broadcast_confirm:yes" \/ data = "broadcast_confirm:no" ->
  dispatch build_application a (CallbackQuery user data) = None.
Proof.
  intros Hst [-> | ->]; route; try reflexivity; exfalso; apply Hst; congruence.
Qed.

(** X14.  A confirmation button pressed by a user whose conversation is
    not at the confirmation step (a stale keyboard, or somebody else's) is
    not handled at all: nothing is answered and nothing changes. *)
Theorem stale_confirmation_button_ignored (a : App) (user : User) (data : string) :
  (feedback_states a !! uid user <> Some FEEDBACK_CONFIRM ->
   data = "feedback_confirm:yes" \/ data = "feedback_confirm:no" ->
   process_update a (CallbackQuery user data) = (a, []))
  /\ (broadcast_states a !! uid user <> Some BROADCAST_CONFIRM ->
      data = "broadcast_confirm:yes" \/ data = "broadcast_confirm:no" ->
      process_update a (CallbackQuery user data) = (a, [])).
Proof.
  split; intros Hst Hdata; unfold process_update.
  - rewrite (dispatch_stale_feedback_button a user data Hst Hdata). reflexivity.
  - rewrite (dispatch_stale_broadcast_button a user data Hst Hdata). reflexivity.
Qed.

Lemma utility_text_handler_stray (text : string) (c : Ctx) :
  Py.get (user_data c) "utility_mode" <> Py.VStr "echo" ->
  utility_text_handler (Some text) c
  = (tt, said c [Reply "I do not understand. Use /help or /start." None]).
Proof.
  intros Hmode. unfold utility_text_handler. run_handler.
  destruct (Py.get (user_data c) "utility_mode") as [| m]; [reflexivity |].
  simpl. destruct (String.eqb_spec m "echo") as [-> | Hne]; [contradiction | reflexivity].
Qed.

Lemma stray_text_run (a : App) (user : User) (text : string) :
  awaits_text a (uid user) = false ->
  Py.get (user_data_of a (uid user)) "utility_mode" <> Py.VStr "echo" ->
  let r := process_update a (TextMessage user text) in
  snd r = [Reply "I do not understand. Use /help or /start." None]
  /\ app_store (fst r) = app_store a
  /\ (forall w, conversations (fst r) w = conversations a w)
  /\ user_data_of (fst r) (uid user) = user_data_of a (uid user).
Proof.
  intros Hfree Hmode r. subst r.
  rewrite (process_update_dispatch _ _ _ _ (dispatch_text_free a user text Hfree)).
  cbn [effective_user run_call]. rewrite bind_ret_none.
  rewrite (utility_text_handler_stray text (context_for a (uid user)) Hmode).
  cbn [fst snd]. split; [reflexivity |]. split; [reflexivity |].
  split; [intros w; apply commit_plain | apply user_data_of_commit].
Qed.

(** X15.  A text from a user of whom no conversation expects a text and
    whose echo flag is not set is answered by the guidance message, and
    nothing changes: it is not dropped and not interpreted. *)
Theorem stray_text_gets_guidance (a : App) (user : User) (text : string) :
  awaits_text a (uid user) = false ->
  Py.get (user_data_of a (uid user)) "utility_mode" <> Py.VStr "echo" ->
  let r := process_update a (TextMessage user text) in
  snd r = [Reply "I do not understand. Use /help or /start." None]
  /\ app_store (fst r) = app_store a
  /\ (forall w, conversations (fst r) w = conversations a w)
  /\ user_data_of (fst r) (uid user) = user_data_of a (uid user).
Proof. apply stray_text_run. Qed.




(** *** The text steps *)




(** *** Registration from end to end *)





(** *** The two delivery loops, attempt by attempt *)



Lemma notify_admins_log (admins : list Z) (text : string) :
  forall c : Ctx,
  exists log,
    trail (snd (notify_admins admins text c)) = trail c ++ notify_trace text log
    /\ map fst log = admins.
Proof.
  induction admins as [| k rest IH]; intros c.
  - exists []. simpl. rewrite app_nil_r. auto.
  - cbn [notify_admins]. unfold bind at 1. unfold bot_send_message, bind, ask, emit, ret.
    destruct (send_message k text (ext c)) as [ok x].
    destruct ok; simpl; unfold logger_warning, emit; simpl;
      match goal with |- context [notify_admins rest text ?c'] =>
        destruct (IH c') as (log & Ht & Hv) end;
      simpl in Ht; rewrite Ht.
    + exists ((k, true) :: log). simpl. rewrite <- !app_assoc. simpl.
      split; [reflexivity | f_equal; exact Hv].
    + exists ((k, false) :: log). simpl. rewrite <- !app_assoc. simpl.
      split; [reflexivity | f_equal; exact Hv].
Qed.

(** *** A confirmed feedback *)

Lemma feedback_decision_affirmative (from_user : User) (data text : string) (c : Ctx) :
  Py.get (user_data c) "pending_feedback" = Py.VStr text ->
  Py.endswith data "yes" = true ->
  exists log,
    map fst log = AUTH_USERS
    /\ fst (feedback_decision from_user data c) = END
    /\ trail (snd (feedback_decision from_user data c))
       = trail c ++ [Answer] ++ notify_trace (feedback_notice from_user text) log
         ++ [EditMessage "Feedback sent. Thank you." None]
    /\ store (snd (feedback_decision from_user data c))
       = {| profiles := profiles (store c);
            feedback := feedback (store c)
                        ++ [{| fb_user_id := uid from_user;
                               fb_username := username from_user;
                               fb_text := text;
                               fb_created_at := fst (time_time (ext c)) |}];
            blocked_users := blocked_users (store c) |}.
Proof.
  intros Hstaged Hyes. unfold feedback_decision. run_handler.
  rewrite Hstaged, Hyes. unfold ask, add_feedback. run_handler.
  destruct (time_time (ext c)) as [now x]. simpl.
  match goal with |- context [notify_admins ?l ?t ?c1] =>
    destruct (notify_admins_log l t c1) as (log & Ht & Hv);
    pose proof (notify_admins_store l t c1) as Hs;
    destruct (notify_admins l t c1) as [[] c2] end.
  simpl in *. exists log. split; [exact Hv |]. split; [reflexivity |].
  rewrite Ht, Hs. unfold feedback_notice. rewrite <- !app_assoc. split; reflexivity.
Qed.

(** X20.  A feedback confirmed with "yes": exactly one entry is appended
    to the log, with the id and the handle of the confirmer and the staged
    text; one notification is attempted per entry of the allow-list, in its
    order, a failed one is followed by a warning and stops nothing; the
    confirmer is thanked whatever the outcomes; the staged text is cleared
    and the conversation is over.  Profiles and blocked users are
    untouched. *)
Theorem confirmed_feedback_is_recorded (a : App) (user : User) (text : string) :
  feedback_states a !! uid user = Some FEEDBACK_CONFIRM ->
  Py.get (user_data_of a (uid user)) "pending_feedback" = Py.VStr text ->
  let r := process_update a (CallbackQuery user "feedback_confirm:yes") in
  exists log e,
    map fst log = AUTH_USERS
    /\ snd r = [Answer] ++ notify_trace (feedback_notice user text) log
               ++ [EditMessage "Feedback sent. Thank you." None]
    /\ feedback (app_store (fst r)) = feedback (app_store a) ++ [e]
    /\ fb_user_id e = uid user /\ fb_username e = username user /\ fb_text e = text
    /\ profiles (app_store (fst r)) = profiles (app_store a)
    /\ blocked_users (app_store (fst r)) = blocked_users (app_store a)
    /\ Py.get (user_data_of (fst r) (uid user)) "pending_feedback" = Py.VNone
    /\ feedback_states (fst r) !! uid user = None.
Proof.
  intros Hst Hstaged r. subst r.
  rewrite (process_update_dispatch _ _ _ _ (dispatch_feedback_yes a user Hst)).
  cbn [effective_user run_call]. rewrite bind_ret_some.
  destruct (feedback_decision_affirmative user "feedback_confirm:yes" text
              (context_for a (uid user)) Hstaged eq_refl)
    as (log & Hlog & Hend & Htrail & Hstore).
  destruct (feedback_decision_ends user "feedback_confirm:yes" (context_for a (uid user)))
    as [_ Hnone].
  cbn [fst snd]. rewrite Hend, Htrail.
  eexists log, _. split; [exact Hlog |]. split; [reflexivity |].
  cbn [commit app_store]. rewrite Hstore. cbn [feedback profiles blocked_users].
  split; [reflexivity |]. cbn [fb_user_id fb_username fb_text].
  split; [reflexivity |]. split; [reflexivity |]. split; [reflexivity |].
  split; [reflexivity |]. split; [reflexivity |].
  split; [rewrite user_data_of_commit; exact Hnone | apply update_state_end].
Qed.

(** *** A confirmed broadcast *)


(** *** The feedback listing *)

(** X22.  [/admin_feedback], in any state: a sender outside the allow-list
    is refused; an administrator is told "No feedback yet." when the log is
    empty and is otherwise shown the last ten entries of the log (all of
    them when there are fewer), oldest first, each with its time, author
    and text.  Nothing is changed. *)
Theorem admin_feedback_lists_last_ten (a : App) (user : User) (args : list string) :
  let r := process_update a (CommandMessage user "admin_feedback" args) in
  let log := feedback (app_store a) in
  app_store (fst r) = app_store a
  /\ snd r
     = [Reply (if is_authorized (Some (uid user))
               then match log with
                    | [] => "No feedback yet."
                    | _ => Py.join Py.nl (map feedback_line (drop (length log - 10) log))
                    end
               else "You are not authorized to use this command.") None].
Proof.
  intros r log. subst r.
  rewrite (process_update_dispatch _ _ _ _
             (dispatch_plain_command a user "admin_feedback" args
                cb_admin_show_feedback eq_refl)).
  cbn [effective_user run_call]. rewrite bind_ret_none. cbn [fst snd].
  unfold admin_show_feedback. cbn [fmap option_fmap option_map].
  destruct (is_authorized (Some (uid user))); cbn [negb].
  2:{ split; reflexivity. }
  run_handler. rewrite get_recent_feedback_tail by lia.
  change (Z.to_nat 10) with 10%nat. fold log.
  destruct log as [| e rest] eqn:Hlog; [split; reflexivity |].
  destruct (drop (length (e :: rest) - 10) (e :: rest)) as [| e' rest'] eqn:Hdrop.
  - exfalso. apply (f_equal length) in Hdrop. rewrite length_drop in Hdrop.
    simpl in Hdrop. lia.
  - split; reflexivity.
Qed.

(** *** First contact *)

Lemma dict_set_set {V} (d : list (Z * V)) (k : Z) (v v' : V) :
  Py.dict_set (Py.dict_set d k v) k v' = Py.dict_set d k v'.
Proof.
  induction d as [| [k0 v0] d IH]; simpl.
  - rewrite Z.eqb_refl. reflexivity.
  - destruct (Z.eqb_spec k0 k) as [-> | Hne]; simpl.
    + rewrite Z.eqb_refl. reflexivity.
    + destruct (Z.eqb_spec k0 k); [contradiction |]. rewrite IH. reflexivity.
Qed.

Lemma get_or_create_profile_new (k : Z) (c : Ctx) :
  Py.dict_get (profiles (store c)) k = None ->
  get_or_create_profile k c
  = ({| user_id := k; name := None; age := None;
        created_at := fst (time_time (ext c)) |},
     {| store := {| profiles :=
                      Py.dict_set (profiles (store c)) k
                        {| user_id := k; name := None; age := None;
                           created_at := fst (time_time (ext c)) |};
                    feedback := feedback (store c);
                    blocked_users := blocked_users (store c) |};
        user_data := user_data c;
        ext := snd (time_time (ext c));
        trail := trail c |}).
Proof.
  intros Hnew. unfold get_or_create_profile. run_handler. rewrite Hnew.
  unfold ask. destruct (time_time (ext c)) as [now x]. reflexivity.
Qed.

Lemma start_new_profile (user : User) (c : Ctx) :
  Py.dict_get (profiles (store c)) (uid user) = None ->
  start (Some user) c
  = (tt,
     {| store := {| profiles :=
                      Py.dict_set (profiles (store c)) (uid user)
                        {| user_id := uid user;
                           name := if Py.truthy (full_name user)
                                   then Some (full_name user) else None;
                           age := None;
                           created_at := fst (time_time (ext c)) |};
                    feedback := feedback (store c);
                    blocked_users := blocked_users (store c) |};
        user_data := user_data c;
        ext := snd (time_time (ext c));
        trail := trail c ++
                 [Reply welcome_text
                    (Some (build_main_menu_keyboard (is_authorized (Some (uid user)))))] |}).
Proof.
  intros Hnew. unfold start. unfold bind at 1.
  rewrite (get_or_create_profile_new _ _ Hnew). cbn [name].
  destruct (Py.truthy (full_name user)).
  - unfold bind at 1. unfold update_profile_name. unfold bind at 1.
    rewrite (get_or_create_profile_existing (uid user)
               {| user_id := uid user; name := None; age := None;
                  created_at := fst (time_time (ext c)) |})
      by (cbn [store profiles]; apply dict_get_set_eq).
    unfold assign_name, with_name. run_handler. rewrite dict_set_set. reflexivity.
  - reflexivity.
Qed.

(** X23.  [/start] from a user who has no profile creates one: it carries
    the sender's id, no age, and the sender's full name as its name unless
    that is empty; it is appended after the existing profiles.  The reply
    is the welcome with the main menu, which has the broadcast button
    exactly for an administrator. *)
Theorem start_creates_profile (a : App) (user : User) (args : list string) :
  Py.dict_get (profiles (app_store a)) (uid user) = None ->
  let r := process_update a (CommandMessage user "start" args) in
  snd r = [Reply welcome_text
             (Some (build_main_menu_keyboard (is_authorized (Some (uid user)))))]
  /\ Py.dict_keys (profiles (app_store (fst r)))
     = Py.dict_keys (profiles (app_store a)) ++ [uid user]
  /\ exists p,
       Py.dict_get (profiles (app_store (fst r))) (uid user) = Some p
       /\ user_id p = uid user
       /\ age p = None
       /\ name p = (if Py.truthy (full_name user) then Some (full_name user) else None).
Proof.
  intros Hnew r. subst r.
  rewrite (process_update_dispatch _ _ _ _
             (dispatch_plain_command a user "start" args cb_start eq_refl)).
  cbn [effective_user run_call]. rewrite bind_ret_none. cbn [fst snd].
  rewrite (start_new_profile user (context_for a (uid user)) Hnew).
  cbn [snd trail store profiles commit app_store context_for app].
  split; [reflexivity |]. split.
  - rewrite dict_keys_set. unfold Py.dict_in. rewrite Hnew. reflexivity.
  - eexists. split; [apply dict_get_set_eq |]. repeat split.
Qed.

(** *** The recent-feedback query on its bounds *)

(** X24.  For a limit [k] of at least one, [get_recent_feedback] returns
    the last [k] entries of the log in the order of the log (all of it when
    it has fewer): at most [k] entries, and the whole log exactly when the
    log has at most [k] entries. *)
Theorem recent_feedback_is_the_tail (s : InMemoryStore) (k : Z) :
  1 <= k ->
  get_recent_feedback s k = drop (length (feedback s) - Z.to_nat k) (feedback s)
  /\ Z.of_nat (length (get_recent_feedback s k)) <= k
  /\ (get_recent_feedback s k = feedback s <-> Z.of_nat (length (feedback s)) <= k).
Proof.
  intros Hk. split; [apply get_recent_feedback_tail, Hk |].
  split; [apply get_recent_feedback_bound, Hk | apply get_recent_feedback_all, Hk].
Qed.

(** X25.  A negative limit does not limit: [get_recent_feedback(-k)] is
    the slice [feedback[k:]], the log without its [k] oldest entries
    (empty when the log has at most [k]). *)
Theorem recent_feedback_negative_limit (s : InMemoryStore) (k : Z) :
  1 <= k ->
  get_recent_feedback s (- k) = drop (Z.to_nat k) (feedback s).
Proof.
  intros Hk. unfold get_recent_feedback, Py.slice_from.
  rewrite Z.opp_involutive.
  destruct (Z.ltb_spec k 0) as [? | _]; [lia |].
  destruct (Z.le_ge_cases k (Z.of_nat (length (feedback s)))) as [Hle | Hge].
  - rewrite Z.min_l by exact Hle. reflexivity.
  - rewrite Z.min_r by exact Hge. rewrite Nat2Z.id.
    rewrite !drop_ge by lia. reflexivity.
Qed.

(** *** The block list *)

(** X26.  [block_user] and [unblock_user] against [is_blocked] and the
    fan-out: after blocking, the user is blocked and no fan-out attempts a
    delivery to that user; after unblocking, the user is not blocked; the
    standing of any other user, the profiles and the feedback log are not
    affected by either. *)
Theorem block_and_unblock (k k' : Z) (targets : list Z) (text : string) (c : Ctx) :
  let cb := snd (block_user k c) in
  let cu := snd (unblock_user k c) in
  fst (is_blocked k cb) = true
  /\ fst (is_blocked k cu) = false
  /\ (k ∉ map fst (attempts (trail (snd (fan_out targets text 0 0
                                          {| store := store cb; user_data := user_data cb;
                                             ext := ext cb; trail := [] |})))))
  /\ (k' <> k ->
      fst (is_blocked k' cb) = fst (is_blocked k' c)
      /\ fst (is_blocked k' cu) = fst (is_blocked k' c))
  /\ profiles (store cb) = profiles (store c) /\ feedback (store cb) = feedback (store c)
  /\ profiles (store cu) = profiles (store c) /\ feedback (store cu) = feedback (store c).
Proof.
  intros cb cu. subst cb cu. unfold block_user, unblock_user, is_blocked. run_handler.
  split.
  { apply bool_decide_eq_true_2, elem_of_union. left. apply elem_of_singleton. reflexivity. }
  split.
  { apply bool_decide_eq_false_2. intros Hin. apply elem_of_difference in Hin.
    destruct Hin as [_ Hout]. apply Hout, elem_of_singleton. reflexivity. }
  split.
  { match goal with |- context [fan_out targets text 0 0 ?c1] =>
      destruct (fan_out_run targets text 0 0 c1) as (out & Ht & _ & _ & Hv & _) end.
    rewrite Ht. cbn [trail app]. rewrite Hv. cbn [store blocked_users].
    intros Hin. apply list_elem_of_filter in Hin. destruct Hin as [Hfree _].
    apply Hfree, elem_of_union. left. apply elem_of_singleton. reflexivity. }
  split.
  { intros Hne. split; apply bool_decide_ext.
    - rewrite elem_of_union, elem_of_singleton. tauto.
    - rewrite elem_of_difference, elem_of_singleton. tauto. }
  repeat split.
Qed.

(** *** Looking a profile up twice *)

(** X27.  [get_or_create_profile] is idempotent: a second call with the
    same id returns the profile the first one returned and changes
    nothing, whether the first call found the profile or created it; and a
    created profile has the id asked for, no name and no age. *)
Theorem get_or_create_profile_twice (k : Z) (c : Ctx) :
  let r := get_or_create_profile k c in
  get_or_create_profile k (snd r) = r
  /\ Py.dict_get (profiles (store (snd r))) k = Some (fst r)
  /\ match Py.dict_get (profiles (store c)) k with
     | Some p => r = (p, c)
     | None => user_id (fst r) = k /\ name (fst r) = None /\ age (fst r) = None
               /\ Py.dict_keys (profiles (store (snd r)))
                  = Py.dict_keys (profiles (store c)) ++ [k]
     end.
Proof.
  intros r. subst r.
  destruct (get_or_create_profile_spec k c) as (Hget & _).
  cbv zeta in Hget. split.
  { rewrite (get_or_create_profile_existing k _ _ Hget).
    destruct (get_or_create_profile k c). reflexivity. }
  split; [exact Hget |].
  destruct (Py.dict_get (profiles (store c)) k) as [p |] eqn:Hk.
  - apply get_or_create_profile_existing, Hk.
  - rewrite (get_or_create_profile_new k c Hk). cbn [fst snd store profiles].
    rewrite dict_keys_set. unfold Py.dict_in. rewrite Hk. repeat split.
Qed.

(** *** Buttons and the profile command *)

(** X28.  No button of a menu is dead: the callback data of every button
    of the main menu (with or without the administrator's row) is routed
    to [button_main_menu], and that of every button of the utility menu to
    [utility_menu_handler], whatever the state of the sender's
    conversations. *)
Theorem menu_buttons_are_routed (a : App) (user : User) (is_admin : bool) (data : string) :
  (In data (map snd (concat (build_main_menu_keyboard is_admin))) ->
   dispatch build_application a (CallbackQuery user data)
   = Some (None, CallQuery cb_button_main_menu user data))
  /\ (In data (map snd (concat build_utility_menu_keyboard)) ->
      dispatch build_application a (CallbackQuery user data)
      = Some (None, CallQuery cb_utility_menu_handler user data)).
Proof.
  split.
  - destruct is_admin; cbn [build_main_menu_keyboard app concat map snd In];
      intros H; repeat (destruct H as [<- | H]; [route; reflexivity |]); destruct H.
  - cbn [build_utility_menu_keyboard app concat map snd In];
      intros H; repeat (destruct H as [<- | H]; [route; reflexivity |]); destruct H.
Qed.

(** X29.  [/profile] reads with a side effect: the reply is the summary of
    the sender's profile as it is stored afterwards; an existing profile is
    shown and nothing changes, while for a sender without a profile one is
    created, without name and age, and the summary has only the lines ID
    and Registered. *)
Theorem profile_command_shows_or_creates (a : App) (user : User) (args : list string) :
  let r := process_update a (CommandMessage user "profile" args) in
  exists p,
    Py.dict_get (profiles (app_store (fst r))) (uid user) = Some p
    /\ snd r = [Reply (format_profile p) None]
    /\ match Py.dict_get (profiles (app_store a)) (uid user) with
       | Some q => p = q /\ app_store (fst r) = app_store a
       | None =>
           name p = None /\ age p = None
           /\ format_profile p
              = Py.join Py.nl ["ID: " +:+ Py.str_of_int (user_id p);
                               "Registered: " +:+ strftime (created_at p)]
       end.
Proof.
  intros r. subst r.
  rewrite (process_update_dispatch _ _ _ _
             (dispatch_plain_command a user "profile" args cb_profile_command eq_refl)).
  cbn [effective_user run_call]. rewrite bind_ret_none. cbn [fst snd].
  unfold profile_command. unfold bind.
  destruct (Py.dict_get (profiles (app_store a)) (uid user)) as [q |] eqn:Hq.
  - rewrite (get_or_create_profile_existing (uid user) q (context_for a (uid user)) Hq).
    exists q. cbn. split; [exact Hq |]. split; [reflexivity |]. split; reflexivity.
  - rewrite (get_or_create_profile_new (uid user) (context_for a (uid user)) Hq).
    eexists. cbn [snd reply_text emit store commit app_store profiles trail context_for app].
    split; [apply dict_get_set_eq |]. split; [reflexivity |].
    split; [reflexivity |]. split; reflexivity.
Qed.

End Properties.

(** ** Closed instances *)



(** C2 on the scenario of the specification: three recipients, one blocked,
    one delivery that fails. *)
Example fan_out_three_recipients :
  fst (@fan_out demo_env [1; 2; 3] "Hello" 0 0 demo_ctx) = (1, 1)
  /\ attempts (trail (snd (@fan_out demo_env [1; 2; 3] "Hello" 0 0 demo_ctx)))
     = [(1, true); (3, false)].
Proof. vm_compute. split; reflexivity. Qed.

(** The scenario through the confirmation handler: the administrator
    confirms, the report counts one delivery and one failure. *)
Example broadcast_report_three_recipients :
  trail (snd (@broadcast_decision demo_env demo_config (Some alice)
                "broadcast_confirm:yes" demo_staged_ctx))
  = [Answer; SendMessage 1 "Hello" true; Sleep; SendMessage 3 "Hello" false;
     LogWarning 3; EditMessage "Broadcast finished. Sent: 1, failed: 1." None].
Proof. vm_compute. reflexivity. Qed.


(** C4 on a log of one entry. *)
Example whole_log_at_limit_zero :
  @get_recent_feedback demo_env demo_store 0 = [demo_entry]
  /\ @get_recent_feedback demo_env demo_store 1 = [demo_entry].
Proof. split; reflexivity. Qed.








Lemma register_cancel_keeps_commits_witness :
  (register_states awaiting_age_app !! uid alice = Some REGISTER_AGE
   /\ app_store (fst (demo_update awaiting_age_app (CommandMessage alice "cancel" [])))
      = app_store awaiting_age_app)
  /\ (register_states awaiting_name_app !! uid alice = Some REGISTER_NAME
      /\ Py.truthy (Py.strip " Alice ") = true
      /\ exists p,
           Py.dict_get
             (profiles (app_store
                (fst (demo_update (fst (demo_update awaiting_name_app
                                          (TextMessage alice " Alice ")))
                        (CommandMessage alice "cancel" []))))) (uid alice) = Some p
           /\ name p = Some (Py.strip " Alice ")).
Proof.
  split.
  - split; [reflexivity |].
    exact (proj1 (proj2 (proj1 (@register_cancel_keeps_commits demo_env demo_config
                                  awaiting_age_app alice [] REGISTER_AGE "x") eq_refl))).
  - split; [reflexivity |]. split; [reflexivity |].
    exact (proj2 (proj2 (proj2 (proj2 (@register_cancel_keeps_commits demo_env demo_config
                                  awaiting_name_app alice [] REGISTER_NAME " Alice ")
                                 eq_refl eq_refl)))).
Defined.

Lemma decision_without_staged_text_witness :
  Py.get (user_data demo_ctx) "pending_feedback" = Py.VNone
  /\ Py.get (user_data demo_ctx) "pending_broadcast" = Py.VNone
  /\ fst (@feedback_decision demo_env demo_config bob "feedback_confirm:yes" demo_ctx) = END
  /\ fst (@broadcast_decision demo_env demo_config (Some alice) "broadcast_confirm:yes"
            demo_ctx) = END
  /\ feedback_states stale_confirm_app !! uid bob = Some FEEDBACK_CONFIRM
  /\ Py.get (user_data_of stale_confirm_app (uid bob)) "pending_feedback" = Py.VNone
  /\ snd (demo_update stale_confirm_app (CallbackQuery bob "feedback_confirm:yes"))
     = [Answer; EditMessage "No feedback to send." None]
  /\ broadcast_states stale_confirm_app !! uid alice = Some BROADCAST_CONFIRM
  /\ Py.get (user_data_of stale_confirm_app (uid alice)) "pending_broadcast" = Py.VNone
  /\ snd (demo_update stale_confirm_app (CallbackQuery alice "broadcast_confirm:yes"))
     = [Answer; EditMessage "No broadcast pending." None].
Proof.
  split; [reflexivity |]. split; [reflexivity |]. split.
  { exact (f_equal fst (proj1 (@decision_without_staged_text demo_env demo_config
                                 bob "feedback_confirm:yes" demo_ctx stale_confirm_app)
                          eq_refl)). }
  split.
  { exact (f_equal fst (proj1 (proj2 (@decision_without_staged_text demo_env demo_config
                                        alice "broadcast_confirm:yes" demo_ctx
                                        stale_confirm_app)) eq_refl)). }
  split; [reflexivity |]. split; [reflexivity |]. split.
  { exact (proj1 (proj1 (proj2 (proj2 (@decision_without_staged_text demo_env demo_config
                                         bob "feedback_confirm:yes" demo_ctx
                                         stale_confirm_app))) eq_refl eq_refl)). }
  split; [reflexivity |]. split; [reflexivity |].
  exact (proj1 (proj2 (proj2 (proj2 (@decision_without_staged_text demo_env demo_config
                                       alice "broadcast_confirm:yes" demo_ctx
                                       stale_confirm_app))) eq_refl eq_refl)).
Defined.

(** ** Closed instances of the further properties *)


Lemma flows_keep_to_their_key_witness :
  @dispatch demo_env build_application feedback_confirm_app (CommandMessage bob "start" [])
    = Some (None, CallCommand cb_start bob [])
  /\ written_key (CallCommand cb_start bob []) <> Some "pending_feedback"
  /\ user_data_of (fst (demo_update feedback_confirm_app (CommandMessage bob "start" [])))
       (uid bob) !! "pending_feedback"
     = user_data_of feedback_confirm_app (uid bob) !! "pending_feedback".
Proof.
  split; [reflexivity |]. split; [discriminate |].
  apply (@flows_keep_to_their_key demo_env demo_config feedback_confirm_app
           (CommandMessage bob "start" []) None (CallCommand cb_start bob [])
           "pending_feedback"); [reflexivity | discriminate].
Defined.

Lemma callbacks_run_in_their_state_witness :
  @dispatch demo_env build_application feedback_confirm_app
    (CallbackQuery bob "feedback_confirm:no")
    = Some (Some feedback_conv, CallQuery cb_feedback_decision bob "feedback_confirm:no")
  /\ fits feedback_confirm_app (Some feedback_conv)
       (CallQuery cb_feedback_decision bob "feedback_confirm:no").
Proof.
  split; [reflexivity |].
  exact (proj2 (@callbacks_run_in_their_state demo_env feedback_confirm_app
                  (CallbackQuery bob "feedback_confirm:no") (Some feedback_conv)
                  (CallQuery cb_feedback_decision bob "feedback_confirm:no") eq_refl)).
Defined.

Lemma plain_commands_interrupt_nothing_witness :
  plain_callback "help" = Some cb_help_command
  /\ conversations (fst (demo_update awaiting_age_app (CommandMessage alice "help" [])))
       register_conv
     = conversations awaiting_age_app register_conv.
Proof.
  split; [reflexivity |].
  exact (proj1 (proj2 (@plain_commands_interrupt_nothing demo_env demo_config
                         awaiting_age_app alice "help" [] cb_help_command register_conv
                         eq_refl))).
Defined.

Lemma unknown_command_changes_nothing_witness :
  known_command "stop" = false
  /\ snd (demo_update awaiting_age_app (CommandMessage alice "stop" []))
     = [Reply "Unknown command. Use /help." None].
Proof.
  split; [reflexivity |].
  exact (proj1 (@unknown_command_changes_nothing demo_env demo_config
                  awaiting_age_app alice "stop" [] eq_refl)).
Defined.

Lemma cancel_without_conversation_witness :
  (forall w, conversations demo_app w !! uid alice = None)
  /\ snd (demo_update demo_app (CommandMessage alice "cancel" []))
     = [Reply "Unknown command. Use /help." None].
Proof.
  split; [intros []; reflexivity |].
  apply (@cancel_without_conversation demo_env demo_config demo_app alice []).
  intros []; reflexivity.
Defined.

Lemma entry_command_inside_conversation_witness :
  conversations awaiting_age_app register_conv !! uid alice = Some REGISTER_AGE
  /\ snd (demo_update awaiting_age_app (CommandMessage alice "register" []))
     = [Reply "Unknown command. Use /help." None].
Proof.
  split; [reflexivity |].
  exact (proj1 (@entry_command_inside_conversation demo_env demo_config
                  awaiting_age_app alice register_conv REGISTER_AGE [] eq_refl)).
Defined.

Lemma conversations_coexist_witness :
  register_states feedback_confirm_app !! uid bob = None
  /\ feedback_states feedback_confirm_app !! uid bob = Some FEEDBACK_CONFIRM
  /\ register_states
       (fst (demo_update feedback_confirm_app (CommandMessage bob "register" [])))
       !! uid bob = Some REGISTER_NAME.
Proof.
  split; [reflexivity |]. split; [reflexivity |].
  exact (proj1 (@conversations_coexist demo_env demo_config feedback_confirm_app bob
                  FEEDBACK_CONFIRM [] [] eq_refl eq_refl)).
Defined.

Lemma stale_confirmation_button_ignored_witness :
  feedback_states demo_app !! uid alice <> Some FEEDBACK_CONFIRM
  /\ broadcast_states demo_app !! uid alice <> Some BROADCAST_CONFIRM
  /\ demo_update demo_app (CallbackQuery alice "feedback_confirm:yes") = (demo_app, [])
  /\ demo_update demo_app (CallbackQuery alice "broadcast_confirm:no") = (demo_app, []).
Proof.
  split; [discriminate |]. split; [discriminate |]. split.
  - apply (proj1 (@stale_confirmation_button_ignored demo_env demo_config demo_app alice
                    "feedback_confirm:yes")); [discriminate | left; reflexivity].
  - apply (proj2 (@stale_confirmation_button_ignored demo_env demo_config demo_app alice
                    "broadcast_confirm:no")); [discriminate | right; reflexivity].
Defined.

Lemma stray_text_gets_guidance_witness :
  awaits_text demo_app (uid alice) = false
  /\ Py.get (user_data_of demo_app (uid alice)) "utility_mode" <> Py.VStr "echo"
  /\ snd (demo_update demo_app (TextMessage alice "hello"))
     = [Reply "I do not understand. Use /help or /start." None].
Proof.
  split; [reflexivity |]. split; [discriminate |].
  apply (@stray_text_gets_guidance demo_env demo_config demo_app alice "hello");
    [reflexivity | discriminate].
Defined.





Lemma confirmed_feedback_is_recorded_witness :
  feedback_states feedback_confirm_app !! uid bob = Some FEEDBACK_CONFIRM
  /\ Py.get (user_data_of feedback_confirm_app (uid bob)) "pending_feedback" = Py.VStr "hi"
  /\ exists log e,
       map fst log = @AUTH_USERS demo_config
       /\ snd (demo_update feedback_confirm_app (CallbackQuery bob "feedback_confirm:yes"))
          = [Answer] ++ notify_trace (feedback_notice bob "hi") log
            ++ [EditMessage "Feedback sent. Thank you." None]
       /\ feedback (app_store (fst (demo_update feedback_confirm_app
                                      (CallbackQuery bob "feedback_confirm:yes"))))
          = feedback (app_store feedback_confirm_app) ++ [e].
Proof.
  split; [reflexivity |]. split; [reflexivity |].
  destruct (@confirmed_feedback_is_recorded demo_env demo_config feedback_confirm_app
              bob "hi" eq_refl eq_refl) as (log & e & H1 & H2 & H3 & _).
  exists log, e. split; [exact H1 |]. split; [exact H2 | exact H3].
Defined.


Lemma start_creates_profile_witness :
  Py.dict_get (profiles (app_store demo_app)) (uid alice) = None
  /\ Py.dict_keys (profiles (app_store (fst (demo_update demo_app
                                               (CommandMessage alice "start" [])))))
     = Py.dict_keys (profiles (app_store demo_app)) ++ [uid alice].
Proof.
  split; [reflexivity |].
  exact (proj1 (proj2 (@start_creates_profile demo_env demo_config demo_app alice []
                         eq_refl))).
Defined.

Lemma recent_feedback_is_the_tail_witness :
  1 <= 1
  /\ Z.of_nat (length (@get_recent_feedback demo_env demo_store 1)) <= 1.
Proof.
  split; [lia |].
  exact (proj1 (proj2 (@recent_feedback_is_the_tail demo_env demo_store 1 ltac:(lia)))).
Defined.

Lemma recent_feedback_negative_limit_witness :
  1 <= 1
  /\ @get_recent_feedback demo_env demo_store (- 1) = drop (Z.to_nat 1) (feedback demo_store).
Proof.
  split; [lia |].
  exact (@recent_feedback_negative_limit demo_env demo_store 1 ltac:(lia)).
Defined.

Lemma block_and_unblock_witness :
  3 <> 1
  /\ fst (@is_blocked demo_env 3 (snd (@block_user demo_env 1 demo_ctx)))
     = fst (@is_blocked demo_env 3 demo_ctx)
  /\ fst (@is_blocked demo_env 1 (snd (@block_user demo_env 1 demo_ctx))) = true.
Proof.
  split; [discriminate |].
  pose proof (@block_and_unblock demo_env 1 3 [1; 2; 3] "Hello" demo_ctx) as H.
  cbv zeta in H. destruct H as (H1 & _ & _ & H4 & _).
  split; [apply H4; discriminate | exact H1].
Defined.

Lemma menu_buttons_are_routed_witness :
  In "menu_admin_broadcast" (map snd (concat (build_main_menu_keyboard true)))
  /\ In "util_dice" (map snd (concat build_utility_menu_keyboard))
  /\ @dispatch demo_env build_application awaiting_age_app
       (CallbackQuery alice "menu_admin_broadcast")
     = Some (None, CallQuery cb_button_main_menu alice "menu_admin_broadcast")
  /\ @dispatch demo_env build_application awaiting_age_app
       (CallbackQuery alice "util_dice")
     = Some (None, CallQuery cb_utility_menu_handler alice "util_dice").
Proof.
  assert (H1 : In "menu_admin_broadcast" (map snd (concat (build_main_menu_keyboard true))))
    by (simpl; tauto).
  assert (H2 : In "util_dice" (map snd (concat build_utility_menu_keyboard)))
    by (simpl; tauto).
  split; [exact H1 |]. split; [exact H2 |]. split.
  - exact (proj1 (@menu_buttons_are_routed demo_env awaiting_age_app alice true
                    "menu_admin_broadcast") H1).
  - exact (proj2 (@menu_buttons_are_routed demo_env awaiting_age_app alice true
                    "util_dice") H2).
Defined.
